(** * sqlite_orm: a shallow embedding of the ORM layer

    The development follows the layout of the repository:

    - [PyStr], [PyDict]: the few Python built-ins the code relies on
      ([str.rsplit], [in], ordered dictionaries);
    - [FieldTypes]: [src/database/field_types.py];
    - [Query]: [src/database/query.py];
    - [Sqlite]: a model of the embedded SQL engine for the statements the ORM
      generates (the engine is an external collaborator of the repository);
    - [Connection]: [src/database/connection.py];
    - [BaseModel]: [src/base_model.py];
    - [Demo]: the record type of [main.py].

    Theorems come after the definitions. *)

From Stdlib Require Import String Ascii List ZArith Bool Arith Lia.
Import ListNotations.
Open Scope string_scope.

(* ================================================================= *)
(** ** Python strings *)

Module PyStr.

(** [sub in s] for strings. *)
Fixpoint contains (sub s : string) : bool :=
  match s with
  | EmptyString => prefix sub EmptyString
  | String _ s' => prefix sub s || contains sub s'
  end.

(** [s[n:]] *)
Fixpoint skip (n : nat) (s : string) : string :=
  match n, s with
  | O, _ => s
  | S _, EmptyString => EmptyString
  | S n', String _ s' => skip n' s'
  end.

(** The one split [s.rsplit(sep, 1)] performs: the text before and after
    the right-most occurrence of [sep], when there is one. *)
Fixpoint rpartition (sep s : string) : option (string * string) :=
  match s with
  | EmptyString => None
  | String c s' =>
      match rpartition sep s' with
      | Some (a, b) => Some (String c a, b)
      | None =>
          if prefix sep s then Some (EmptyString, skip (String.length sep) s)
          else None
      end
  end.

(** [s.rsplit(sep, 1)] for a non-empty separator. *)
Definition rsplit1 (sep s : string) : list string :=
  match rpartition sep s with
  | Some (a, b) => [a; b]
  | None => [s]
  end.

(** [s.startswith(p)] *)
Definition startswith (s p : string) : bool := prefix p s.

Definition lower_ascii (c : ascii) : ascii :=
  let n := nat_of_ascii c in
  if Nat.leb 65 n && Nat.leb n 90 then ascii_of_nat (n + 32) else c.

(** Lowering the ASCII letters of [s] and leaving every other character
    as it is.  On ASCII text ([is_ascii]) this is [s.lower()]; it is also
    how the SQL engine folds the case of a name. *)
Fixpoint lower (s : string) : string :=
  match s with
  | EmptyString => EmptyString
  | String c s' => String (lower_ascii c) (lower s')
  end.

(** [s.isascii()] *)
Definition is_ascii (s : string) : bool :=
  forallb (fun c => Nat.ltb (nat_of_ascii c) 128) (list_ascii_of_string s).

(** [sep.join(parts)] *)
Definition join (sep : string) (parts : list string) : string :=
  String.concat sep parts.

(** [sub] occurs in [s] at offset [i]. *)
Definition occurs_at (sub s : string) (i : nat) : Prop :=
  exists a b, s = a ++ sub ++ b /\ String.length a = i.

End PyStr.

(* ================================================================= *)
(** ** Python dictionaries: insertion-ordered, keyed by strings *)

Module PyDict.
Section Dict.
Context {V : Type}.

Definition dict := list (string * V).

(** [d.get(k)] *)
Fixpoint get (d : dict) (k : string) : option V :=
  match d with
  | [] => None
  | (k', v) :: d' => if String.eqb k k' then Some v else get d' k
  end.

(** [k in d] *)
Definition mem (d : dict) (k : string) : bool :=
  match get d k with Some _ => true | None => false end.

(** [d[k] = v]: an existing key keeps its position. *)
Fixpoint set (d : dict) (k : string) (v : V) : dict :=
  match d with
  | [] => [(k, v)]
  | (k', v') :: d' =>
      if String.eqb k k' then (k', v) :: d' else (k', v') :: set d' k v
  end.

(** [del d[k]] when present. *)
Fixpoint remove (d : dict) (k : string) : dict :=
  match d with
  | [] => []
  | (k', v') :: d' =>
      if String.eqb k k' then d' else (k', v') :: remove d' k
  end.

(** [list(d.keys())], [list(d.values())] *)
Definition keys (d : dict) : list string := map fst d.
Definition values (d : dict) : list V := map snd d.

(** [d.update(items)] *)
Definition update (d : dict) (items : list (string * V)) : dict :=
  fold_left (fun acc kv => set acc (fst kv) (snd kv)) items d.

End Dict.
Arguments dict : clear implicits.
End PyDict.

(* ================================================================= *)
(** ** Python values, exceptions and results *)

(** The values a field or a query parameter can hold.  A [float] is carried
    as its IEEE-754 binary64 bit pattern. *)
Inductive pyvalue : Type :=
| PyNone
| PyBool (b : bool)
| PyInt (z : Z)
| PyFloat (bits : Z)
| PyStr (s : string).

Definition pyvalue_is_none (v : pyvalue) : bool :=
  match v with PyNone => true | _ => false end.

(** Truth value testing. *)
Definition truthy (v : pyvalue) : bool :=
  match v with
  | PyNone => false
  | PyBool b => b
  | PyInt z => negb (Z.eqb z 0)
  | PyFloat bits => negb (Z.eqb (Z.land bits (Z.ones 63)) 0)
  | PyStr s => negb (String.eqb s EmptyString)
  end.

(** The exceptions the code raises or lets through. *)
Inductive exception : Type :=
| RuntimeError (msg : string)
| ValueError (msg : string)
| AttributeError (msg : string)
| OperationalError (msg : string)     (* sqlite3.OperationalError *)
| ProgrammingError (msg : string)     (* sqlite3.ProgrammingError *)
| OverflowError (msg : string)
| TypeError (msg : string)
| UserError (kind msg : string)       (* whatever a user hook raises *)
| NotModelled (what : string).        (* engine behaviour outside the model *)

Inductive result (A : Type) : Type :=
| Ok (a : A)
| Raise (e : exception).
Arguments Ok {A} a.
Arguments Raise {A} e.

Definition is_configuration_error (e : exception) : bool :=
  match e with RuntimeError _ => true | _ => false end.

(** [type(v).__name__] *)
Definition type_name (v : pyvalue) : string :=
  match v with
  | PyNone => "NoneType"
  | PyBool _ => "bool"
  | PyInt _ => "int"
  | PyFloat _ => "float"
  | PyStr _ => "str"
  end.

(** Calling a value: none of them is callable. *)
Definition not_callable (v : pyvalue) : exception :=
  TypeError ("'" ++ type_name v ++ "' object is not callable").

(** A keyword argument that names a parameter the call has already bound
    ([cls] of a class method called on its class). *)
Definition multiple_values (function parameter : string) : exception :=
  TypeError (function ++ "() got multiple values for argument '" ++
             parameter ++ "'").

(* ================================================================= *)
(** ** src/database/query.py *)

Module Query.

(** [QueryBuilder.OPERATORS] *)
Definition OPERATORS : PyDict.dict string :=
  [ ("__exact", "=");
    ("__gt", ">");
    ("__lt", "<");
    ("__like", "LIKE") ].

(** [QueryBuilder.parse_filter_key] *)
Definition parse_filter_key (key : string) : string * string :=
  if negb (PyStr.contains "__" key) then (key, "__exact")
  else
    match PyStr.rsplit1 "__" key with
    | [field_name; operator] =>
        let operator := "__" ++ operator in
        if PyDict.mem OPERATORS operator then (field_name, operator)
        else (key, "__exact")
    | _ => (key, "__exact")
    end.

(** One clause [f"{field_name} {sql_operator} ?"]. *)
Record condition : Type := Condition {
  field_name : string;
  sql_operator : string
}.

(** The WHERE text handed to the engine: the joined clauses, or the
    literal [1=1]. *)
Inductive where_clause : Type :=
| OneEqOne
| Conj (conditions : list condition).

Definition condition_text (c : condition) : string :=
  field_name c ++ " " ++ sql_operator c ++ " ?".

Definition where_text (w : where_clause) : string :=
  match w with
  | OneEqOne => "1=1"
  | Conj cs => PyStr.join " AND " (map condition_text cs)
  end.

Definition unsupported_operator (operator : string) : exception :=
  ValueError ("Unsupported filter operator: " ++ operator).

(** The loop of [QueryBuilder.parse_filters] over [kwargs.items()]. *)
Fixpoint parse_filters_loop (items : list (string * pyvalue))
    (conditions : list condition) (values : list pyvalue)
  : result (list condition * list pyvalue) :=
  match items with
  | [] => Ok (conditions, values)
  | (key, value) :: items' =>
      let '(field_name, operator) := parse_filter_key key in
      match PyDict.get OPERATORS operator with
      | None => Raise (unsupported_operator operator)
      | Some sql_operator =>
          parse_filters_loop items'
            (conditions ++ [Condition field_name sql_operator])%list
            (values ++ [value])%list
      end
  end.

(** [QueryBuilder.parse_filters], given its keywords.  A keyword [cls]
    does not get as far as the body: it names the first parameter of the
    class method and the call itself raises [TypeError]. *)
Definition parse_filters (kwargs : PyDict.dict pyvalue)
  : result (where_clause * list pyvalue) :=
  match parse_filters_loop kwargs [] [] with
  | Raise e => Raise e
  | Ok (conditions, values) =>
      let where_clause :=
        match conditions with
        | [] => OneEqOne
        | _ => Conj conditions
        end in
      Ok (where_clause, values)
  end.

End Query.

(* ================================================================= *)
(** ** src/database/field_types.py *)

Module FieldTypes.

(** What a field annotation can evaluate to: one of the classes the mapper
    knows, [NoneType], any other class, the object [None], or a
    parameterised form ([X | Y], [Optional[X]], [list[X]], ...) for which
    [get_origin] answers and [get_args] gives the arguments. *)
#[warnings="-register-all"] Inductive annotation : Type :=
| T_str
| T_int
| T_float
| T_bool
| T_NoneType
| T_class (name : string)
| T_None
| T_alias (origin : string) (args : list annotation).

Fixpoint annotation_eqb (a b : annotation) : bool :=
  match a, b with
  | T_str, T_str | T_int, T_int | T_float, T_float | T_bool, T_bool
  | T_NoneType, T_NoneType | T_None, T_None => true
  | T_class n, T_class m => String.eqb n m
  | T_alias o xs, T_alias p ys =>
      String.eqb o p &&
      (fix all2 (xs ys : list annotation) : bool :=
         match xs, ys with
         | [], [] => true
         | x :: xs', y :: ys' => annotation_eqb x y && all2 xs' ys'
         | _, _ => false
         end) xs ys
  | _, _ => false
  end.

(** [typing.get_origin], [typing.get_args] *)
Definition get_origin (a : annotation) : option string :=
  match a with T_alias origin _ => Some origin | _ => None end.

Definition get_args (a : annotation) : list annotation :=
  match a with T_alias _ args => args | _ => [] end.

(** [isinstance(a, type)] *)
Definition is_type (a : annotation) : bool :=
  match a with
  | T_str | T_int | T_float | T_bool | T_NoneType | T_class _ => true
  | T_None | T_alias _ _ => false
  end.

(** [class FieldType] *)
Record FieldType : Type := mkFieldType {
  sqlite_type : string;
  python_type : annotation
}.

(** [FieldType.to_db_value] *)
Definition FieldType_to_db_value (self : FieldType) (value : pyvalue)
  : pyvalue :=
  if pyvalue_is_none value then PyNone
  else if annotation_eqb (python_type self) T_bool then
    (if truthy value then PyInt 1 else PyInt 0)
  else value.

(** [FieldType.from_db_value] *)
Definition FieldType_from_db_value (self : FieldType) (value : pyvalue)
  : pyvalue :=
  if pyvalue_is_none value then PyNone
  else if annotation_eqb (python_type self) T_bool then
    PyBool (truthy value)
  else value.

(** [TYPE_MAPPING] *)
Definition TYPE_MAPPING : list (annotation * FieldType) :=
  [ (T_str, mkFieldType "TEXT" T_str);
    (T_int, mkFieldType "INTEGER" T_int);
    (T_float, mkFieldType "REAL" T_float);
    (T_bool, mkFieldType "INTEGER" T_bool) ].

(** [TYPE_MAPPING.get(annotation)] *)
Definition TYPE_MAPPING_get (a : annotation) : option FieldType :=
  option_map snd (find (fun kv => annotation_eqb a (fst kv)) TYPE_MAPPING).

(** [arg is type(None) if isinstance(arg, type) else arg is None] *)
Definition none_arg (arg : annotation) : bool :=
  if is_type arg then annotation_eqb arg T_NoneType
  else annotation_eqb arg T_None.

(** [get_field_type] *)
Definition get_field_type (annotation0 : annotation) : option FieldType :=
  if annotation_eqb annotation0 T_None then None
  else
    let annotation1 :=
      match get_origin annotation0 with
      | Some _ =>
          let args := get_args annotation0 in
          if Nat.eqb (List.length args) 2 then
            let has_none := existsb none_arg args in
            if has_none then
              match find (fun arg => negb (annotation_eqb arg T_NoneType))
                      args with
              | Some non_none_type =>
                  if annotation_eqb non_none_type T_None then annotation0
                  else non_none_type
              | None => annotation0
              end
            else annotation0
          else if Nat.ltb 0 (List.length args) then
            match args with
            | first :: _ => first
            | [] => annotation0
            end
          else annotation0
      | None => annotation0
      end in
    TYPE_MAPPING_get annotation1.

(** [python_to_sqlite_type] *)
Definition python_to_sqlite_type (a : annotation) : option string :=
  option_map sqlite_type (get_field_type a).

(** [to_db_value] *)
Definition to_db_value (value : pyvalue) (a : annotation) : pyvalue :=
  match get_field_type a with
  | None => value
  | Some field_type => FieldType_to_db_value field_type value
  end.

(** [from_db_value] *)
Definition from_db_value (value : pyvalue) (a : annotation) : pyvalue :=
  match get_field_type a with
  | None => value
  | Some field_type => FieldType_from_db_value field_type value
  end.

(** [isinstance(v, T)] for the four supported classes ([bool] is a
    subclass of [int]). *)
Definition isinstance (v : pyvalue) (T : annotation) : bool :=
  match T, v with
  | T_str, PyStr _ => true
  | T_int, PyInt _ => true
  | T_int, PyBool _ => true
  | T_float, PyFloat _ => true
  | T_bool, PyBool _ => true
  | _, _ => false
  end.

Definition supported : list annotation := [T_str; T_int; T_float; T_bool].

End FieldTypes.

(* ================================================================= *)
(** ** Results as an error monad *)

Definition rbind {A B : Type} (r : result A) (k : A -> result B) : result B :=
  match r with
  | Ok a => k a
  | Raise e => Raise e
  end.

Fixpoint rmap {A B : Type} (f : A -> result B) (xs : list A)
  : result (list B) :=
  match xs with
  | [] => Ok []
  | x :: xs' =>
      rbind (f x) (fun y => rbind (rmap f xs') (fun ys => Ok (y :: ys)))
  end.

Fixpoint rfilter {A : Type} (f : A -> result bool) (xs : list A)
  : result (list A) :=
  match xs with
  | [] => Ok []
  | x :: xs' =>
      rbind (f x) (fun keep =>
      rbind (rfilter f xs') (fun ys => Ok (if keep then x :: ys else ys)))
  end.

(* ================================================================= *)
(** ** The embedded SQL engine

    The engine is not part of the repository.  This module models what it
    does with the six statement shapes [base_model.py] sends, on tables
    whose first column is [id INTEGER PRIMARY KEY AUTOINCREMENT].

    The statements carry their names unquoted.  [CREATE TABLE] is modelled
    for names that are plain identifiers ([creatable]); for any other name
    (a reserved word such as [order] or [group], a name outside ASCII, two
    columns that differ in case only) the outcome is [NotModelled].  The
    statements on a table that is there are taken to parse, the table
    having been created under these names.  The engine finds a table
    whatever the case of its ASCII letters, while the lookup in
    [sqlite_master] compares the name exactly: a table is looked up by its
    exact name first, and where only a table of another case is there
    ([has_variant]), [CREATE TABLE IF NOT EXISTS] does nothing and the
    outcome of the other statements is [NotModelled].

    A value is stored in the storage class it is bound with; a REAL column
    gives negative zero back as zero; and the cases where the engine would
    convert between storage classes (type affinity), compare a REAL, or
    apply LIKE to something that is not text without NUL inside ASCII are
    reported as [NotModelled]. *)

Module Sqlite.

Inductive sqlval : Type :=
| Null
| Integer (z : Z)
| Real (bits : Z)
| Text (s : string).

(** The SQL texts of [base_model.py], by shape. *)
Inductive statement : Type :=
| TableExists
| CreateTable (table_name : string) (columns : list (string * string))
| Insert (table_name : string) (field_names : list string)
| Select (column_names : list string) (table_name : string)
         (where_ : option Query.where_clause)
| Update (table_name : string) (field_names : list string)
| Delete (table_name : string).

Definition sql_text (q : statement) : string :=
  match q with
  | TableExists =>
      "SELECT name FROM sqlite_master WHERE type='table' AND name=?"
  | CreateTable t columns =>
      "CREATE TABLE IF NOT EXISTS " ++ t ++ " (" ++
      PyStr.join ", " (map (fun c => fst c ++ " " ++ snd c) columns) ++ ")"
  | Insert t field_names =>
      "INSERT INTO " ++ t ++ " (" ++ PyStr.join ", " field_names ++
      ") VALUES (" ++ PyStr.join ", " (map (fun _ => "?") field_names) ++ ")"
  | Select column_names t None =>
      "SELECT " ++ PyStr.join ", " column_names ++ " FROM " ++ t
  | Select column_names t (Some w) =>
      "SELECT " ++ PyStr.join ", " column_names ++ " FROM " ++ t ++
      " WHERE " ++ Query.where_text w
  | Update t field_names =>
      "UPDATE " ++ t ++ " SET " ++
      PyStr.join ", " (map (fun name => name ++ " = ?") field_names) ++
      " WHERE id = ?"
  | Delete t => "DELETE FROM " ++ t ++ " WHERE id = ?"
  end.

Record row : Type := mkRow {
  rowid : Z;
  cells : PyDict.dict sqlval
}.

Record table : Type := mkTable {
  columns : list (string * string);   (* name, declared type; [id] first *)
  rows : list row;
  seq : Z                             (* largest rowid ever handed out *)
}.

Definition database : Type := PyDict.dict table.

Record cursor : Type := mkCursor {
  fetchall : list (list pyvalue);
  lastrowid : pyvalue
}.

Definition fetchone (c : cursor) : option (list pyvalue) :=
  match fetchall c with
  | [] => None
  | r :: _ => Some r
  end.

Definition is_nan (bits : Z) : bool :=
  Z.eqb (Z.land (Z.shiftr bits 52) 2047) 2047 &&
  negb (Z.eqb (Z.land bits (Z.ones 52)) 0).

(** Binding a Python value to a [?]. *)
Definition bind_value (v : pyvalue) : result sqlval :=
  match v with
  | PyNone => Ok Null
  | PyBool b => Ok (Integer (if b then 1 else 0))
  | PyInt z =>
      if Z.leb (- 2 ^ 63) z && Z.ltb z (2 ^ 63) then Ok (Integer z)
      else Raise (OverflowError
                    "Python int too large to convert to SQLite INTEGER")
  | PyFloat bits => Ok (if is_nan bits then Null else Real bits)
  | PyStr s => Ok (Text s)
  end.

Definition bind_values (params : list pyvalue) : result (list sqlval) :=
  rmap bind_value params.

(** Reading a stored value back, as it was kept (see [kept] for a REAL). *)
Definition fetch_value (v : sqlval) : pyvalue :=
  match v with
  | Null => PyNone
  | Integer z => PyInt z
  | Real bits => PyFloat bits
  | Text s => PyStr s
  end.

Definition has_column (t : table) (c : string) : bool :=
  existsb (String.eqb c) (map fst (columns t)).

Definition column_value (r : row) (c : string) : sqlval :=
  if String.eqb c "id" then Integer (rowid r)
  else match PyDict.get (cells r) c with
       | Some v => v
       | None => Null
       end.

(** Three-valued comparison: [None] when an operand is NULL. *)
Definition compare_values (a b : sqlval) : result (option comparison) :=
  match a, b with
  | Null, _ | _, Null => Ok None
  | Integer x, Integer y => Ok (Some (Z.compare x y))
  | Text x, Text y => Ok (Some (String.compare x y))
  | Real _, _ | _, Real _ => Raise (NotModelled "comparison of a REAL")
  | _, _ => Raise (NotModelled "comparison across storage classes")
  end.

(** [text LIKE pattern] on ASCII text: [%] matches any run of characters,
    [_] any one character, letters match without regard to case. *)
Fixpoint like (pattern text : list ascii) : bool :=
  match pattern with
  | [] => match text with [] => true | _ => false end
  | p :: pattern' =>
      if Ascii.eqb p "%" then
        (fix star (text : list ascii) : bool :=
           like pattern' text ||
           match text with
           | [] => false
           | _ :: text' => star text'
           end) text
      else
        match text with
        | [] => false
        | c :: text' =>
            (Ascii.eqb p "_"
             || Ascii.eqb (PyStr.lower_ascii p) (PyStr.lower_ascii c))
            && like pattern' text'
        end
  end.

(** Text LIKE is modelled on: ASCII characters, none of them NUL (the
    engine matches character by character, and stops at a NUL). *)
Definition like_text (s : string) : bool :=
  forallb
    (fun c => Nat.ltb 0 (nat_of_ascii c) && Nat.ltb (nat_of_ascii c) 128)
    (list_ascii_of_string s).

(** The engine's messages put the offending token between double
    quotes. *)
Definition quoted (s : string) : string :=
  String (ascii_of_nat 34) (s ++ String (ascii_of_nat 34) EmptyString).

Definition syntax_error (near : string) : exception :=
  OperationalError ("near " ++ quoted near ++ ": syntax error").

(** One clause [column op ?] on one row; NULL counts as not matching. *)
Definition holds (r : row) (c : Query.condition) (param : sqlval)
  : result bool :=
  let v := column_value r (Query.field_name c) in
  let op := Query.sql_operator c in
  if String.eqb op "LIKE" then
    match v, param with
    | Null, _ | _, Null => Ok false
    | Text s, Text p =>
        if like_text s && like_text p then
          Ok (like (list_ascii_of_string p) (list_ascii_of_string s))
        else Raise (NotModelled "LIKE on text outside ASCII")
    | _, _ => Raise (NotModelled "LIKE on a value that is not text")
    end
  else
    rbind (compare_values v param) (fun cmp =>
      match cmp with
      | None => Ok false
      | Some o =>
          if String.eqb op "=" then
            Ok (match o with Eq => true | _ => false end)
          else if String.eqb op ">" then
            Ok (match o with Gt => true | _ => false end)
          else if String.eqb op "<" then
            Ok (match o with Lt => true | _ => false end)
          else Raise (syntax_error op)
      end).

Fixpoint holds_all (r : row) (cs : list Query.condition)
    (params : list sqlval) : result bool :=
  match cs, params with
  | [], [] => Ok true
  | c :: cs', p :: params' =>
      rbind (holds r c p) (fun b =>
      rbind (holds_all r cs' params') (fun bs => Ok (b && bs)))
  | _, _ => Raise (ProgrammingError "Incorrect number of bindings supplied")
  end.

Definition matches (w : option Query.where_clause) (params : list sqlval)
    (r : row) : result bool :=
  match w with
  | None =>
      match params with
      | [] => Ok true
      | _ => Raise (ProgrammingError "Incorrect number of bindings supplied")
      end
  | Some Query.OneEqOne =>
      match params with
      | [] =>
          rbind (compare_values (Integer 1) (Integer 1)) (fun cmp =>
            Ok (match cmp with Some Eq => true | _ => false end))
      | _ => Raise (ProgrammingError "Incorrect number of bindings supplied")
      end
  | Some (Query.Conj cs) => holds_all r cs params
  end.


Definition no_such_table (t : string) : exception :=
  OperationalError ("no such table: " ++ t).

Definition no_such_column (c : string) : exception :=
  OperationalError ("no such column: " ++ c).

(** The words the engine reserves: a name spelled like one of them, in
    whatever case, does not parse as a name where it is not allowed to
    stand in for one. *)
Definition keywords : list string :=
  [ "abort"; "action"; "add"; "after"; "all"; "alter"; "always"; "analyze";
    "and"; "as"; "asc"; "attach"; "autoincrement"; "before"; "begin";
    "between"; "by"; "cascade"; "case"; "cast"; "check"; "collate";
    "column"; "commit"; "conflict"; "constraint"; "create"; "cross";
    "current"; "current_date"; "current_time"; "current_timestamp";
    "database"; "default"; "deferrable"; "deferred"; "delete"; "desc";
    "detach"; "distinct"; "do"; "drop"; "each"; "else"; "end"; "escape";
    "except"; "exclude"; "exclusive"; "exists"; "explain"; "fail";
    "filter"; "first"; "following"; "for"; "foreign"; "from"; "full";
    "generated"; "glob"; "group"; "groups"; "having"; "if"; "ignore";
    "immediate"; "in"; "index"; "indexed"; "initially"; "inner"; "insert";
    "instead"; "intersect"; "into"; "is"; "isnull"; "join"; "key"; "last";
    "left"; "like"; "limit"; "match"; "materialized"; "natural"; "no";
    "not"; "nothing"; "notnull"; "null"; "nulls"; "of"; "offset"; "on";
    "or"; "order"; "others"; "outer"; "over"; "partition"; "plan";
    "pragma"; "preceding"; "primary"; "query"; "raise"; "range";
    "recursive"; "references"; "regexp"; "reindex"; "release"; "rename";
    "replace"; "restrict"; "returning"; "right"; "rollback"; "row"; "rows";
    "savepoint"; "select"; "set"; "table"; "temp"; "temporary"; "then";
    "ties"; "to"; "transaction"; "trigger"; "unbounded"; "union"; "unique";
    "update"; "using"; "vacuum"; "values"; "view"; "virtual"; "when";
    "where"; "window"; "with"; "within"; "without" ].

Definition is_digit (c : ascii) : bool :=
  Nat.leb 48 (nat_of_ascii c) && Nat.leb (nat_of_ascii c) 57.

Definition name_char (c : ascii) : bool :=
  let n := nat_of_ascii c in
  is_digit c || (Nat.leb 65 n && Nat.leb n 90)
  || (Nat.leb 97 n && Nat.leb n 122) || Nat.eqb n 95.

(** ASCII letters, digits and underscores, not starting with a digit. *)
Definition identifier (s : string) : bool :=
  match s with
  | EmptyString => false
  | String c _ =>
      negb (is_digit c) && forallb name_char (list_ascii_of_string s)
  end.

(** A name that parses as a name when written without quotes: an
    identifier that is no reserved word and does not start with the prefix
    the engine keeps for its own tables. *)
Definition plain_name (s : string) : bool :=
  identifier s
  && negb (existsb (String.eqb (PyStr.lower s)) keywords)
  && negb (prefix "sqlite_" (PyStr.lower s)).

Fixpoint distinct (names : list string) : bool :=
  match names with
  | [] => true
  | n :: names' => negb (existsb (String.eqb n) names') && distinct names'
  end.

(** The column list [_create_table_sql] writes: [id] as the key, then
    columns of the three types of the type mapper. *)
Definition declared (cols : list (string * string)) : bool :=
  match cols with
  | (c, d) :: cols' =>
      String.eqb c "id"
      && String.eqb d "INTEGER PRIMARY KEY AUTOINCREMENT"
      && forallb (fun col =>
                    existsb (String.eqb (snd col)) ["TEXT"; "INTEGER"; "REAL"])
           cols'
  | [] => false
  end.

(** The [CREATE TABLE] statements the model covers: plain names, the
    columns distinct whatever the case of their letters, declared as
    [_create_table_sql] declares them. *)
Definition creatable (t : string) (cols : list (string * string)) : bool :=
  plain_name t
  && forallb plain_name (map fst cols)
  && distinct (map PyStr.lower (map fst cols))
  && declared cols.

(** Another table has this name but for the case of its ASCII letters. *)
Definition has_variant (db : database) (t : string) : bool :=
  existsb (fun name =>
             negb (String.eqb name t)
             && String.eqb (PyStr.lower name) (PyStr.lower t))
    (PyDict.keys db).

Definition lookup_table (db : database) (t : string) : result table :=
  match PyDict.get db t with
  | Some tbl => Ok tbl
  | None =>
      if has_variant db t then
        Raise (NotModelled "a table whose name differs in case")
      else Raise (no_such_table t)
  end.

Definition check_columns (tbl : table) (names : list string)
  : result unit :=
  match find (fun c => negb (has_column tbl c)) names with
  | Some c => Raise (no_such_column c)
  | None => Ok tt
  end.

Definition known_operator (op : string) : bool :=
  existsb (String.eqb op) ["="; ">"; "<"; "LIKE"].

Definition check_where (tbl : table) (w : option Query.where_clause)
  : result unit :=
  match w with
  | Some (Query.Conj cs) =>
      match cs with
      | [] => Raise (syntax_error "WHERE")
      | _ =>
          rbind (check_columns tbl (map Query.field_name cs)) (fun _ =>
          match find (fun c => negb (known_operator (Query.sql_operator c)))
                  cs with
          | Some c => Raise (syntax_error (Query.sql_operator c))
          | None => Ok tt
          end)
      end
  | _ => Ok tt
  end.

(** The number of [?] in a statement against the number of parameters,
    then the parameters themselves. *)
Definition with_parameters {A : Type} (expected : nat)
    (params : list pyvalue) (k : list sqlval -> result A) : result A :=
  if Nat.eqb (List.length params) expected then
    rbind (bind_values params) k
  else Raise (ProgrammingError "Incorrect number of bindings supplied").

Definition placeholders (w : option Query.where_clause) : nat :=
  match w with
  | Some (Query.Conj cs) => List.length cs
  | _ => 0
  end.

(** The bit pattern of [-0.0]. *)
Definition negative_zero : Z := 2 ^ 63.

(** What a REAL column keeps of a float: one without fraction is kept as
    an integer, so that negative zero comes back as zero. *)
Definition kept (v : sqlval) : sqlval :=
  match v with
  | Real bits => Real (if Z.eqb bits negative_zero then 0 else bits)
  | _ => v
  end.

(** A value meets the declared type of the column it goes to. *)
Definition store (tbl : table) (c : string) (v : sqlval) : result sqlval :=
  let declared :=
    match PyDict.get (columns tbl) c with
    | Some d => d
    | None => EmptyString
    end in
  let fits :=
    match v with
    | Null => true
    | Integer _ => String.eqb declared "INTEGER"
    | Real _ => String.eqb declared "REAL"
    | Text _ => String.eqb declared "TEXT"
    end in
  if fits then Ok (kept v) else Raise (NotModelled "type affinity conversion").

Fixpoint store_all (tbl : table) (names : list string) (vs : list sqlval)
  : result (PyDict.dict sqlval) :=
  match names, vs with
  | c :: names', v :: vs' =>
      rbind (store tbl c v) (fun v' =>
      rbind (store_all tbl names' vs') (fun rest => Ok ((c, v') :: rest)))
  | _, _ => Ok []
  end.

Definition is_row (idv : sqlval) (r : row) : result bool :=
  rbind (compare_values (Integer (rowid r)) idv) (fun cmp =>
    Ok (match cmp with Some Eq => true | _ => false end)).

Definition project (column_names : list string) (r : row) : list pyvalue :=
  map (fun c => fetch_value (column_value r c)) column_names.

Definition no_rows : cursor := mkCursor [] PyNone.

Definition execute (db : database) (q : statement) (params : list pyvalue)
  : result (cursor * database) :=
  match q with
  | TableExists =>
      with_parameters 1 params (fun ps =>
        match ps with
        | [Text n] =>
            if PyDict.mem db n then Ok (mkCursor [[PyStr n]] PyNone, db)
            else Ok (no_rows, db)
        | _ => Ok (no_rows, db)
        end)
  | CreateTable t cols =>
      with_parameters 0 params (fun _ =>
        if negb (creatable t cols) then
          Raise (NotModelled "a table that is not plainly declared")
        else if PyDict.mem db t || has_variant db t then Ok (no_rows, db)
        else Ok (no_rows, PyDict.set db t (mkTable cols [] 0)))
  | Insert t field_names =>
      match field_names with
      | [] => Raise (syntax_error ")")
      | _ =>
          rbind (lookup_table db t) (fun tbl =>
          match find (fun c => negb (has_column tbl c)) field_names with
          | Some c =>
              Raise (OperationalError
                       ("table " ++ t ++ " has no column named " ++ c))
          | None =>
              with_parameters (List.length field_names) params (fun ps =>
                if PyDict.mem (combine field_names ps) "id" then
                  Raise (NotModelled "insert with an explicit rowid")
                else
                  rbind (store_all tbl field_names ps) (fun given =>
                    let new_id := (seq tbl + 1)%Z in
                    let r := mkRow new_id given in
                    let tbl' :=
                      mkTable (columns tbl) (rows tbl ++ [r])%list new_id in
                    Ok (mkCursor [] (PyInt new_id), PyDict.set db t tbl')))
          end)
      end
  | Select column_names t w =>
      match column_names with
      | [] => Raise (syntax_error "FROM")
      | _ =>
          rbind (lookup_table db t) (fun tbl =>
          rbind (check_columns tbl column_names) (fun _ =>
          rbind (check_where tbl w) (fun _ =>
          with_parameters (placeholders w) params (fun ps =>
            rbind (rfilter (matches w ps) (rows tbl)) (fun selected =>
              Ok (mkCursor (map (project column_names) selected) PyNone,
                  db))))))
      end
  | Update t field_names =>
      match field_names with
      | [] => Raise (syntax_error "WHERE")
      | _ =>
          rbind (lookup_table db t) (fun tbl =>
          rbind (check_columns tbl field_names) (fun _ =>
          with_parameters (S (List.length field_names)) params (fun ps =>
            let idv := last ps Null in
            if PyDict.mem (combine field_names ps) "id" then
              Raise (NotModelled "update of the rowid")
            else
              rbind (store_all tbl field_names ps) (fun given =>
              rbind (rmap (fun r =>
                             rbind (is_row idv r) (fun hit =>
                               Ok (if hit
                                   then mkRow (rowid r)
                                          (PyDict.update (cells r) given)
                                   else r)))
                          (rows tbl)) (fun rows' =>
                Ok (no_rows,
                    PyDict.set db t
                      (mkTable (columns tbl) rows' (seq tbl))))))))
      end
  | Delete t =>
      rbind (lookup_table db t) (fun tbl =>
      with_parameters 1 params (fun ps =>
        let idv := last ps Null in
        rbind (rfilter (fun r =>
                          rbind (is_row idv r) (fun hit => Ok (negb hit)))
                       (rows tbl)) (fun rows' =>
          Ok (no_rows,
              PyDict.set db t (mkTable (columns tbl) rows' (seq tbl))))))
  end.

End Sqlite.

(* ================================================================= *)
(** ** src/database/connection.py *)

Module Connection.

(** What a spy on the connection records. *)
Inductive call : Type :=
| Execute (query : Sqlite.statement) (parameters : list pyvalue)
| Commit.

(** [class DatabaseConnection]: whether [self.connection] is set, the
    database behind [database_path], and the calls received so far. *)
Record DatabaseConnection : Type := mkConnection {
  connection : bool;
  database : Sqlite.database;
  calls : list call
}.

(** [DatabaseConnection.connect] *)
Definition connect (self : DatabaseConnection) : DatabaseConnection :=
  if connection self then self
  else mkConnection true (database self) (calls self).

(** [DatabaseConnection.execute] *)
Definition execute (self : DatabaseConnection) (query : Sqlite.statement)
    (parameters : list pyvalue)
  : result Sqlite.cursor * DatabaseConnection :=
  let self := connect self in
  let log := (calls self ++ [Execute query parameters])%list in
  match Sqlite.execute (database self) query parameters with
  | Ok (cur, db') => (Ok cur, mkConnection (connection self) db' log)
  | Raise e => (Raise e, mkConnection (connection self) (database self) log)
  end.

(** [DatabaseConnection.commit] *)
Definition commit (self : DatabaseConnection)
  : result unit * DatabaseConnection :=
  if connection self then
    (Ok tt,
     mkConnection (connection self) (database self)
       (calls self ++ [Commit])%list)
  else (Raise (RuntimeError "Connection is not open"), self).

End Connection.

(* ================================================================= *)
(** ** src/base_model.py *)

Module BaseModel.

(** An instance's [__dict__]. *)
Definition attributes : Type := PyDict.dict pyvalue.

(** A method of no argument but [self], such as a [validate] hook: it
    raises, or returns with [self] possibly changed. *)
Definition method : Type := attributes -> result attributes.

(** What a class body binds a name to: a value; a function of [self]
    alone, given by what it does; or any other function or class method,
    such as those of [Model], whose bodies are definitions of this
    module. *)
Inductive class_attribute : Type :=
| Data (v : pyvalue)
| Function (f : method)
| Method.

(** The inner [class Meta]: for each of its two settings, whether the
    attribute is there and its value. *)
Record MetaClass : Type := mkMeta {
  abstract : option bool;
  db_table : option (option string)
}.

(** One entry of [cls._meta["fields"]]. *)
Record field : Type := mkField {
  annotation : FieldTypes.annotation;
  sqlite_type : string;
  python_type : FieldTypes.annotation
}.

(** [cls._meta] *)
Record metadata : Type := mkMetadata {
  table_name : string;
  fields : PyDict.dict field;
  meta_abstract : bool
}.

(** A class: its own annotations and namespace, its own [Meta] and its
    own [_meta] when it has them. *)
#[warnings="-register-all"] Inductive class_object : Type :=
| Class (name : string) (bases : list class_object)
        (annotations : PyDict.dict FieldTypes.annotation)
        (namespace : PyDict.dict class_attribute)
        (Meta : option MetaClass) (_meta : option metadata).

Definition cls_name (cls : class_object) : string :=
  match cls with Class name _ _ _ _ _ => name end.
Definition cls_bases (cls : class_object) : list class_object :=
  match cls with Class _ bases _ _ _ _ => bases end.
Definition cls_annotations (cls : class_object)
  : PyDict.dict FieldTypes.annotation :=
  match cls with Class _ _ annotations _ _ _ => annotations end.
Definition cls_namespace (cls : class_object)
  : PyDict.dict class_attribute :=
  match cls with Class _ _ _ namespace _ _ => namespace end.
Definition cls_Meta (cls : class_object) : option MetaClass :=
  match cls with Class _ _ _ _ Meta _ => Meta end.
Definition cls__meta (cls : class_object) : option metadata :=
  match cls with Class _ _ _ _ _ _meta => _meta end.

(** The order in which attribute lookup visits a class and its ancestors:
    the class, then each base with its own ancestors, left to right.  For
    a chain of single bases ([single_inheritance]), the only shape the
    repository uses, this is Python's method resolution order; where two
    bases share an ancestor Python visits that ancestor later. *)
Fixpoint mro (cls : class_object) : list class_object :=
  match cls with
  | Class _ bases _ _ _ _ => cls :: flat_map mro bases
  end.

(** The class and its ancestors form a chain: each has one base at
    most. *)
Fixpoint single_inheritance (cls : class_object) : bool :=
  match cls with
  | Class _ bases _ _ _ _ =>
      match bases with
      | [] => true
      | [base] => single_inheritance base
      | _ => false
      end
  end.

Fixpoint first_some {A B : Type} (f : A -> option B) (xs : list A)
  : option B :=
  match xs with
  | [] => None
  | x :: xs' =>
      match f x with
      | Some b => Some b
      | None => first_some f xs'
      end
  end.

(** [getattr(cls, name)] for an attribute set in a class body. *)
Definition class_getattr (cls : class_object) (name : string)
  : option class_attribute :=
  first_some (fun c => PyDict.get (cls_namespace c) name) (mro cls).

(** [cls.Meta] and [cls._meta], found on the class or inherited. *)
Definition getattr_Meta (cls : class_object) : option MetaClass :=
  first_some cls_Meta (mro cls).

Definition getattr__meta (cls : class_object) : option metadata :=
  first_some cls__meta (mro cls).

(** [typing.get_type_hints(cls, include_extras=True)] *)
Definition get_type_hints (cls : class_object)
  : PyDict.dict FieldTypes.annotation :=
  fold_left
    (fun hints base =>
       fold_left
         (fun hints item =>
            let value :=
              if FieldTypes.annotation_eqb (snd item) FieldTypes.T_None
              then FieldTypes.T_NoneType else snd item in
            PyDict.set hints (fst item) value)
         (cls_annotations base) hints)
    (rev (mro cls)) [].

(** What a class statement hands to the metaclass. *)
Record class_body : Type := mkBody {
  body_annotations : PyDict.dict FieldTypes.annotation;
  body_namespace : PyDict.dict class_attribute;
  body_Meta : option MetaClass
}.

(** Copying into [meta_class] the settings of a base's [Meta] it lacks. *)
Definition inherit_Meta (meta_class base_Meta : MetaClass) : MetaClass :=
  mkMeta
    (match abstract meta_class with
     | Some a => Some a
     | None => abstract base_Meta
     end)
    (match db_table meta_class with
     | Some t => Some t
     | None => db_table base_Meta
     end).

(** One round of the field loop of [ModelMeta.__new__]. *)
Definition derive_field (cls : class_object) (fields : PyDict.dict field)
    (item : string * FieldTypes.annotation) : PyDict.dict field :=
  let field_name := fst item in
  let annotation := snd item in
  if PyStr.startswith field_name "_"
     || String.eqb field_name "Meta" || String.eqb field_name "id"
  then fields
  else
    match class_getattr cls field_name with
    | Some (Function _) | Some Method => fields
    | _ =>
        match FieldTypes.get_field_type annotation with
        | Some field_type =>
            PyDict.set fields field_name
              (mkField annotation
                 (FieldTypes.sqlite_type field_type)
                 (FieldTypes.python_type field_type))
        | None => fields
        end
    end.

(** The field loop of [ModelMeta.__new__]. *)
Definition derive_fields (cls : class_object)
    (type_hints : PyDict.dict FieldTypes.annotation) : PyDict.dict field :=
  fold_left (derive_field cls) type_hints [].

(** [ModelMeta.__new__] *)
Definition ModelMeta_new (name : string) (bases : list class_object)
    (body : class_body) : class_object :=
  let meta_class :=
    match body_Meta body with
    | Some m => m
    | None => mkMeta None None
    end in
  let meta_class :=
    fold_left
      (fun m base =>
         match getattr_Meta base with
         | Some base_Meta => inherit_Meta m base_Meta
         | None => m
         end)
      bases meta_class in
  let meta_class :=
    mkMeta (match abstract meta_class with
            | Some a => Some a
            | None => Some false
            end)
           (match db_table meta_class with
            | Some t => Some t
            | None => Some None
            end) in
  let is_abstract :=
    match abstract meta_class with Some a => a | None => false end in
  if is_abstract then
    Class name bases (body_annotations body) (body_namespace body)
      (Some meta_class) None
  else
    let table :=
      match db_table meta_class with
      | Some (Some t) => t
      | _ => PyStr.lower name
      end in
    let meta_class := mkMeta (abstract meta_class) (Some (Some table)) in
    let cls :=
      Class name bases (body_annotations body) (body_namespace body)
        (Some meta_class) None in
    let type_hints := get_type_hints cls in
    let fields := derive_fields cls type_hints in
    Class name bases (body_annotations body) (body_namespace body)
      (Some meta_class) (Some (mkMetadata table fields is_abstract)).

(** [class Model(metaclass=ModelMeta)]: its two annotated data
    attributes, then its methods, whose bodies are the definitions
    below. *)
Definition Model : class_object :=
  ModelMeta_new "Model" []
    (mkBody
       [ ("id", FieldTypes.T_alias "Union"
                  [FieldTypes.T_int; FieldTypes.T_NoneType]);
         ("_db", FieldTypes.T_alias "ClassVar"
                   [FieldTypes.T_alias "Union"
                      [FieldTypes.T_class "DatabaseConnection";
                       FieldTypes.T_NoneType]]) ]
       [ ("id", Data PyNone); ("_db", Data PyNone);
         ("__init__", Method); ("__repr__", Method);
         ("get_table_name", Method); ("get_fields", Method);
         ("is_abstract", Method); ("configure_db", Method);
         ("_ensure_db_connection", Method); ("_table_exists", Method);
         ("_create_table_sql", Method); ("create_table", Method);
         ("_ensure_table", Method); ("_validate", Method);
         ("_to_db_dict", Method); ("_from_db_row", Method);
         ("create", Method); ("save", Method); ("delete", Method);
         ("get", Method); ("all", Method); ("filter", Method) ]
       (Some (mkMeta (Some false) (Some None)))).

Record instance : Type := mkInstance {
  class_of : class_object;
  attrs : attributes
}.

Definition setattr (self : instance) (name : string) (v : pyvalue)
  : instance :=
  mkInstance (class_of self) (PyDict.set (attrs self) name v).

(** [getattr(self, name, None)]: the instance's own attribute, else a data
    attribute of its class. *)
Definition getattr (self : instance) (name : string) : pyvalue :=
  match PyDict.get (attrs self) name with
  | Some v => v
  | None =>
      match class_getattr (class_of self) name with
      | Some (Data v) => v
      | _ => PyNone
      end
  end.

(** [Model.__init__] *)
Definition __init__ (cls : class_object) (args : list pyvalue)
    (kwargs : PyDict.dict pyvalue) : instance :=
  let id := match PyDict.get kwargs "id" with
            | Some v => v
            | None => PyNone
            end in
  let kwargs := PyDict.remove kwargs "id" in
  let self := setattr (mkInstance cls []) "id" id in
  let kwargs :=
    match getattr__meta cls with
    | Some m =>
        fold_left (fun kw item => PyDict.set kw (fst item) (snd item))
          (combine (PyDict.keys (fields m)) args) kwargs
    | None => kwargs
    end in
  let self :=
    match getattr__meta cls with
    | Some m =>
        fold_left
          (fun self field_name =>
             match PyDict.get kwargs field_name with
             | Some v => setattr self field_name v
             | None => setattr self field_name PyNone
             end)
          (PyDict.keys (fields m)) self
    | None => self
    end in
  fold_left (fun self item => setattr self (fst item) (snd item))
    kwargs self.

(** *** Operations on storage

    [Model._db], the process-wide connection, is the state threaded
    through every operation; an exception leaves the state as it was
    when it was raised. *)

Definition world : Type := option Connection.DatabaseConnection.

Definition M (A : Type) : Type := world -> result A * world.

Definition ret {A : Type} (a : A) : M A := fun w => (Ok a, w).

Definition raise {A : Type} (e : exception) : M A := fun w => (Raise e, w).

Definition bind {A B : Type} (m : M A) (k : A -> M B) : M B :=
  fun w =>
    match m w with
    | (Ok a, w') => k a w'
    | (Raise e, w') => (Raise e, w')
    end.

Definition lift {A : Type} (r : result A) : M A := fun w => (r, w).

Declare Scope py_scope.
Delimit Scope py_scope with py.
Notation "x <- m ;; k" := (bind m (fun x => k))
  (at level 61, m at next level, right associativity) : py_scope.
Notation "m ;; k" := (bind m (fun _ => k))
  (at level 61, right associativity) : py_scope.
Open Scope py_scope.

(** [db.execute(sql, params)] and [db.commit()] on the configured
    connection. *)
Definition db_execute (query : Sqlite.statement) (params : list pyvalue)
  : M Sqlite.cursor :=
  fun w =>
    match w with
    | Some db =>
        let (r, db') := Connection.execute db query params in (r, Some db')
    | None =>
        (Raise (AttributeError
                  "'NoneType' object has no attribute 'execute'"), w)
    end.

Definition db_commit : M unit :=
  fun w =>
    match w with
    | Some db => let (r, db') := Connection.commit db in (r, Some db')
    | None =>
        (Raise (AttributeError
                  "'NoneType' object has no attribute 'commit'"), w)
    end.

Definition not_initialized (cls : class_object) : exception :=
  RuntimeError ("Model " ++ cls_name cls ++
                " is abstract or not properly initialized").

(** [Model.get_table_name] *)
Definition get_table_name (cls : class_object) : result string :=
  match getattr__meta cls with
  | None => Raise (not_initialized cls)
  | Some m => Ok (table_name m)
  end.

(** [Model.get_fields] *)
Definition get_fields (cls : class_object) : result (PyDict.dict field) :=
  match getattr__meta cls with
  | None => Raise (not_initialized cls)
  | Some m => Ok (fields m)
  end.

(** [Model.is_abstract] *)
Definition is_abstract (cls : class_object) : bool :=
  match getattr__meta cls with
  | None => true
  | Some m => meta_abstract m
  end.

(** [Model.configure_db], called on [Model] as [main.py] does. *)
Definition configure_db (database : Sqlite.database) : M unit :=
  fun _ => (Ok tt, Some (Connection.mkConnection false database [])).

(** [Model._ensure_db_connection] *)
Definition _ensure_db_connection : M unit :=
  fun w =>
    match w with
    | None =>
        (Raise (RuntimeError
                  ("Database connection is not configured. " ++
                   "Call Model.configure_db(database_path) " ++
                   "before using models.")), w)
    | Some _ => (Ok tt, w)
    end.

(** [Model._table_exists] *)
Definition _table_exists (table_name : string) : M bool :=
  cursor <- db_execute Sqlite.TableExists [PyStr table_name] ;;
  ret (match Sqlite.fetchone cursor with Some _ => true | None => false end).

Definition abstract_error (doing : string) (cls : class_object)
  : exception :=
  RuntimeError ("Cannot " ++ doing ++ " abstract model " ++ cls_name cls).

(** [Model._create_table_sql] *)
Definition _create_table_sql (cls : class_object)
  : result Sqlite.statement :=
  match getattr__meta cls with
  | None => Raise (not_initialized cls)
  | Some _ =>
      if is_abstract cls then
        Raise (abstract_error "create table for" cls)
      else
        rbind (get_table_name cls) (fun table_name =>
        rbind (get_fields cls) (fun fields =>
          let columns :=
            ("id", "INTEGER PRIMARY KEY AUTOINCREMENT") ::
            map (fun item => (fst item, sqlite_type (snd item))) fields in
          Ok (Sqlite.CreateTable table_name columns)))
  end.

(** [Model.create_table] *)
Definition create_table (cls : class_object) (check_if_exists : bool)
  : M unit :=
  if is_abstract cls then raise (abstract_error "create table for" cls)
  else
    _ensure_db_connection ;;
    table_name <- lift (get_table_name cls) ;;
    found <- (if check_if_exists then _table_exists table_name
              else ret false) ;;
    if found then ret tt
    else
      sql <- lift (_create_table_sql cls) ;;
      db_execute sql [] ;;
      db_commit.

(** [Model._ensure_table] *)
Definition _ensure_table (cls : class_object) : M unit :=
  if is_abstract cls then ret tt
  else create_table cls true.

(** [self.name(...)] for a method [name] of [Model]: an attribute of that
    name on the instance itself, a plain value, is found first and is not
    callable. *)
Definition bound {A : Type} (self : instance) (name : string)
    (body : result A) : result A :=
  match PyDict.get (attrs self) name with
  | Some v => Raise (not_callable v)
  | None => body
  end.

(** [self._validate()]: a [validate] found on the instance itself is a
    plain value, hence not callable, and is not called. *)
Definition _validate (self : instance) : result instance :=
  bound self "_validate"
    match PyDict.get (attrs self) "validate" with
    | Some _ => Ok self
    | None =>
        match class_getattr (class_of self) "validate" with
        | Some (Function validate) =>
            rbind (validate (attrs self)) (fun attrs' =>
              Ok (mkInstance (class_of self) attrs'))
        | Some Method =>
            Raise (NotModelled "a validate hook of more than self")
        | _ => Ok self
        end
    end.

(** [self._to_db_dict()] *)
Definition _to_db_dict (self : instance) : result (PyDict.dict pyvalue) :=
  bound self "_to_db_dict"
    match getattr__meta (class_of self) with
    | None => Raise (not_initialized (class_of self))
    | Some _ =>
        rbind (bound self "get_fields" (get_fields (class_of self)))
          (fun fields =>
             Ok (fold_left
                   (fun db_dict item =>
                      let value := getattr self (fst item) in
                      PyDict.set db_dict (fst item)
                        (FieldTypes.to_db_value value
                           (annotation (snd item))))
                   fields []))
    end.

(** [Model._from_db_row]; a row has one value per selected column. *)
Definition _from_db_row (cls : class_object) (row : list pyvalue)
    (column_names : list string) : result instance :=
  match getattr__meta cls with
  | None => Raise (not_initialized cls)
  | Some _ =>
      rbind (get_fields cls) (fun fields =>
        let data :=
          fold_left
            (fun data item =>
               let column_name := fst item in
               if String.eqb column_name "id" then
                 PyDict.set data "id" (snd item)
               else
                 match PyDict.get fields column_name with
                 | Some field_meta =>
                     PyDict.set data column_name
                       (FieldTypes.from_db_value (snd item)
                          (annotation field_meta))
                 | None => data
                 end)
            (combine column_names row) [] in
        Ok (__init__ cls [] data))
  end.

(** The insert shared by [create] and [save]. *)
Definition insert (self : instance) (table_name : string)
    (db_dict : PyDict.dict pyvalue) : M instance :=
  let field_names := PyDict.keys db_dict in
  let values := PyDict.values db_dict in
  cursor <- db_execute (Sqlite.Insert table_name field_names) values ;;
  db_commit ;;
  ret (setattr self "id" (Sqlite.lastrowid cursor)).

(** [Model.create]; the table is ensured through the instance. *)
Definition create (cls : class_object) (kwargs : PyDict.dict pyvalue)
  : M instance :=
  if is_abstract cls then raise (abstract_error "create instance of" cls)
  else
    let self := __init__ cls [] kwargs in
    self <- lift (_validate self) ;;
    lift (bound self "_ensure_table" (Ok tt)) ;;
    _ensure_table (class_of self) ;;
    _ensure_db_connection ;;
    table_name <- lift (get_table_name cls) ;;
    db_dict <- lift (_to_db_dict self) ;;
    insert self table_name db_dict.

(** [Model.save]: the identity returned, and [self] after the call. *)
Definition save (self : instance) : M (pyvalue * instance) :=
  let cls := class_of self in
  if is_abstract cls then raise (abstract_error "save instance of" cls)
  else
    self <- lift (_validate self) ;;
    _ensure_table cls ;;
    _ensure_db_connection ;;
    table_name <- lift (get_table_name cls) ;;
    db_dict <- lift (_to_db_dict self) ;;
    self <- (if pyvalue_is_none (getattr self "id") then
               insert self table_name db_dict
             else
               let field_names := PyDict.keys db_dict in
               let values :=
                 (PyDict.values db_dict ++ [getattr self "id"])%list in
               db_execute (Sqlite.Update table_name field_names) values ;;
               db_commit ;;
               ret self) ;;
    ret (getattr self "id", self).

(** [Model.delete]: [self] after the call. *)
Definition delete (self : instance) : M instance :=
  let cls := class_of self in
  if is_abstract cls then raise (abstract_error "delete instance of" cls)
  else if pyvalue_is_none (getattr self "id") then
    raise (RuntimeError "Cannot delete instance without id")
  else
    _ensure_db_connection ;;
    table_name <- lift (get_table_name cls) ;;
    db_execute (Sqlite.Delete table_name) [getattr self "id"] ;;
    db_commit ;;
    ret (setattr self "id" PyNone).

(** [Model.get] *)
Definition get (cls : class_object) (id : pyvalue)
  : M (option instance) :=
  if is_abstract cls then raise (abstract_error "get instance of" cls)
  else
    _ensure_table cls ;;
    _ensure_db_connection ;;
    table_name <- lift (get_table_name cls) ;;
    fields <- lift (get_fields cls) ;;
    let column_names := "id" :: PyDict.keys fields in
    cursor <- db_execute
                (Sqlite.Select column_names table_name
                   (Some (Query.Conj [Query.Condition "id" "="])))
                [id] ;;
    match Sqlite.fetchone cursor with
    | None => ret None
    | Some row =>
        found <- lift (_from_db_row cls row column_names) ;;
        ret (Some found)
    end.

(** [Model.all] *)
Definition all (cls : class_object) : M (list instance) :=
  if is_abstract cls then raise (abstract_error "get instances of" cls)
  else
    _ensure_table cls ;;
    _ensure_db_connection ;;
    table_name <- lift (get_table_name cls) ;;
    fields <- lift (get_fields cls) ;;
    let column_names := "id" :: PyDict.keys fields in
    cursor <- db_execute (Sqlite.Select column_names table_name None) [] ;;
    lift (rmap (fun row => _from_db_row cls row column_names)
            (Sqlite.fetchall cursor)).

Definition unknown_field (field_name : string) (cls : class_object)
  : exception :=
  ValueError ("Field '" ++ field_name ++ "' does not exist in model " ++
              cls_name cls).

(** The loop of [Model.filter] that checks each key's field. *)
Fixpoint check_fields (cls : class_object) (fields : PyDict.dict field)
    (keys : list string) : result unit :=
  match keys with
  | [] => Ok tt
  | key :: keys' =>
      let field_name := fst (Query.parse_filter_key key) in
      if negb (PyDict.mem fields field_name)
         && negb (String.eqb field_name "id")
      then Raise (unknown_field field_name cls)
      else check_fields cls fields keys'
  end.

(** [Model.filter]; a keyword [cls] does not get past the call. *)
Definition filter (cls : class_object) (kwargs : PyDict.dict pyvalue)
  : M (list instance) :=
  if PyDict.mem kwargs "cls" then
    raise (multiple_values "Model.filter" "cls")
  else if is_abstract cls then
    raise (abstract_error "filter instances of" cls)
  else
    _ensure_table cls ;;
    _ensure_db_connection ;;
    table_name <- lift (get_table_name cls) ;;
    fields <- lift (get_fields cls) ;;
    parsed <- lift (Query.parse_filters kwargs) ;;
    let where_clause := fst parsed in
    let values := snd parsed in
    lift (check_fields cls fields (PyDict.keys kwargs)) ;;
    let column_names := "id" :: PyDict.keys fields in
    cursor <- db_execute
                (Sqlite.Select column_names table_name (Some where_clause))
                values ;;
    lift (rmap (fun row => _from_db_row cls row column_names)
            (Sqlite.fetchall cursor)).

End BaseModel.

(* ================================================================= *)
(** ** main.py: the demonstration record type, and further declarations
    used as examples *)

Module Demo.
Import BaseModel.

(** [class User(Model)] with [name: str], [email: str], [age: int = 18]
    and [Meta.db_table = "users"]. *)
Definition User : class_object :=
  ModelMeta_new "User" [Model]
    (mkBody
       [ ("name", FieldTypes.T_str);
         ("email", FieldTypes.T_str);
         ("age", FieldTypes.T_int) ]
       [ ("age", Data (PyInt 18)) ]
       (Some (mkMeta None (Some (Some "users"))))).

(** A record type with a field declared [value: int | str | float]. *)
Definition Reading : class_object :=
  ModelMeta_new "Reading" [Model]
    (mkBody
       [ ("sensor", FieldTypes.T_str);
         ("value", FieldTypes.T_alias "Union"
                     [FieldTypes.T_int; FieldTypes.T_str;
                      FieldTypes.T_float]) ]
       []
       (Some (mkMeta None (Some (Some "readings"))))).

(** A record type with a field declared [delete: int | str | float],
    the name of a method it inherits from [Model]. *)
Definition Job : class_object :=
  ModelMeta_new "Job" [Model]
    (mkBody
       [ ("title", FieldTypes.T_str);
         ("delete", FieldTypes.T_alias "Union"
                      [FieldTypes.T_int; FieldTypes.T_str;
                       FieldTypes.T_float]) ]
       []
       (Some (mkMeta None (Some (Some "jobs"))))).

(** A record type with a field declared [code: int | str]. *)
Definition Ticket : class_object :=
  ModelMeta_new "Ticket" [Model]
    (mkBody
       [ ("title", FieldTypes.T_str);
         ("code", FieldTypes.T_alias "Union"
                    [FieldTypes.T_int; FieldTypes.T_str]) ]
       []
       (Some (mkMeta None (Some (Some "tickets"))))).

(** A [validate] hook that rejects a negative age. *)
Definition validate_age : method :=
  fun self =>
    match PyDict.get self "age" with
    | Some (PyInt age) =>
        if Z.ltb age 0 then Raise (ValueError "age must not be negative")
        else Ok self
    | _ => Ok self
    end.

(** [class Member(User)] defining [validate]. *)
Definition Member : class_object :=
  ModelMeta_new "Member" [User]
    (mkBody [] [ ("validate", Function validate_age) ] None).

(** A fresh, empty database file, configured as [Model._db]. *)
Definition fresh : world :=
  Some (Connection.mkConnection false [] []).

Definition alice : PyDict.dict pyvalue :=
  [ ("name", PyStr "Alice"); ("email", PyStr "alice@mail.com");
    ("age", PyInt 25) ].

Definition bob : PyDict.dict pyvalue :=
  [ ("name", PyStr "Bob"); ("email", PyStr "bob@mail.com") ].

(** The database after [User.create] of Alice, then of Bob. *)
Definition two_users : world :=
  snd ((create User alice ;; create User bob) fresh).

Definition two_users_db : Connection.DatabaseConnection :=
  match two_users with
  | Some db => db
  | None => Connection.mkConnection false [] []
  end.

Definition users_table : Sqlite.table :=
  match PyDict.get (Connection.database two_users_db) "users" with
  | Some tbl => tbl
  | None => Sqlite.mkTable [] [] 0
  end.

(** Alice as [User.create] returned her. *)
Definition alice_created : instance :=
  __init__ User [] (("id", PyInt 1) :: alice).

(** Bob as [User.create] returned him: no age was given. *)
Definition bob_created : instance :=
  __init__ User [] (("id", PyInt 2) :: bob).

(** The scenario of the specification: create Alice (25) and Bob (no age),
    filter on [age__gt=18], delete Alice, get her former identity, list
    all. *)
Definition scenario
  : M (list instance * option instance * list instance) :=
  first <- create User alice ;;
  create User bob ;;
  adults <- filter User [("age__gt", PyInt 18)] ;;
  delete first ;;
  gone <- get User (getattr first "id") ;;
  rest <- all User ;;
  ret (adults, gone, rest).

(** [class Base(Model)] declared with [Meta.abstract = True]. *)
Definition Base : class_object :=
  ModelMeta_new "Base" [Model]
    (mkBody [ ("label", FieldTypes.T_str) ] []
       (Some (mkMeta (Some true) None))).

End Demo.

(* ================================================================= *)
(** ** Vocabulary of the properties *)

(** [key] reads [field ++ "__" ++ suffix] and no double underscore starts
    further right than the one written out. *)
Definition final_dunder (key field suffix : string) : Prop :=
  key = field ++ "__" ++ suffix /\
  forall i, PyStr.occurs_at "__" key i -> i <= String.length field.

Definition operator_names : list string := ["exact"; "gt"; "lt"; "like"].

(** The columns [_create_table_sql] lists. *)
Definition schema_columns (m : BaseModel.metadata) : list (string * string) :=
  ("id", "INTEGER PRIMARY KEY AUTOINCREMENT") ::
  map (fun item => (fst item, BaseModel.sqlite_type (snd item)))
    (BaseModel.fields m).




(** No other table has the name of the type's table but for the case of
    its letters. *)
Definition no_case_variant (m : BaseModel.metadata)
    (db : Connection.DatabaseConnection) : Prop :=
  Sqlite.has_variant (Connection.database db) (BaseModel.table_name m)
  = false.


(** The classes derived from [Model] through the metaclass, each from one
    base, none with a body that binds [_meta] or [is_abstract] itself. *)
Inductive model_class : BaseModel.class_object -> Prop :=
| model_class_Model : model_class BaseModel.Model
| model_class_sub name base body :
    model_class base ->
    PyDict.get (BaseModel.body_namespace body) "_meta" = None ->
    PyDict.get (BaseModel.body_namespace body) "is_abstract" = None ->
    model_class (BaseModel.ModelMeta_new name [base] body).



Definition is_value_error (e : exception) : bool :=
  match e with ValueError _ => true | _ => false end.

(** A result that is not a [ValueError]. *)
Definition quiet {A : Type} (r : result A) : Prop :=
  match r with
  | Ok _ => True
  | Raise e => is_value_error e = false
  end.


(** The clause a filter key translates to: its field, and the SQL symbol of
    its operator. *)
Definition clause_of_key (key : string) : Query.condition :=
  Query.Condition (fst (Query.parse_filter_key key))
    (match PyDict.get Query.OPERATORS (snd (Query.parse_filter_key key)) with
     | Some symbol => symbol
     | None => EmptyString
     end).


(** [inspect.ismethod(a) or inspect.isfunction(a)] for what
    [getattr(cls, field_name, None)] gave. *)
Definition is_function (a : option BaseModel.class_attribute) : bool :=
  match a with
  | Some (BaseModel.Function _) | Some BaseModel.Method => true
  | _ => false
  end.

(** The names the field loop of the metaclass passes over whatever their
    annotation: a leading underscore, [Meta], [id], and a name the class
    has or inherits as a function or method. *)
Definition skipped (cls : BaseModel.class_object) (field_name : string)
  : bool :=
  PyStr.startswith field_name "_"
  || String.eqb field_name "Meta" || String.eqb field_name "id"
  || is_function (BaseModel.class_getattr cls field_name).

(** Metadata as the metaclass derives it: field names are distinct, none is
    [id], [Meta] or starts with an underscore, and every field records the
    column type and Python type the type mapper gives for its
    annotation. *)
Definition meta_ok (m : BaseModel.metadata) : Prop :=
  NoDup (PyDict.keys (BaseModel.fields m)) /\
  forall name fm,
    In (name, fm) (BaseModel.fields m) ->
    name <> "id" /\ name <> "Meta" /\ PyStr.startswith name "_" = false /\
    FieldTypes.get_field_type (BaseModel.annotation fm)
    = Some (FieldTypes.mkFieldType (BaseModel.sqlite_type fm)
              (BaseModel.python_type fm)).


(** The [db_table] a class body sets, if it sets one. *)
Definition body_db_table (body : BaseModel.class_body)
  : option (option string) :=
  match BaseModel.body_Meta body with
  | Some meta => BaseModel.db_table meta
  | None => None
  end.


(** The field a key names is declared, or is the identity. *)
Definition known_key (m : BaseModel.metadata) (key : string) : Prop :=
  PyDict.mem (BaseModel.fields m) (fst (Query.parse_filter_key key)) = true \/
  fst (Query.parse_filter_key key) = "id".



(** What a successful operation returns, or the exception it raised. *)
Definition map_result {A B : Type} (f : A -> B) (r : result A) : result B :=
  match r with
  | Ok a => Ok (f a)
  | Raise e => Raise e
  end.






(** The storage value a bound Python value becomes. *)
Definition to_sql (v : pyvalue) : Sqlite.sqlval :=
  match v with
  | PyNone => Sqlite.Null
  | PyBool b => Sqlite.Integer (if b then 1 else 0)
  | PyInt z => Sqlite.Integer z
  | PyFloat bits => if Sqlite.is_nan bits then Sqlite.Null
                    else Sqlite.Real bits
  | PyStr s => Sqlite.Text s
  end.



(** A column accepts the storage value. *)
Definition fits (declared : string) (s : Sqlite.sqlval) : bool :=
  match s with
  | Sqlite.Null => true
  | Sqlite.Integer _ => String.eqb declared "INTEGER"
  | Sqlite.Real _ => String.eqb declared "REAL"
  | Sqlite.Text _ => String.eqb declared "TEXT"
  end.












(* ================================================================= *)
(** * Properties *)

(** ** Strings *)

Section StringFacts.

Lemma append_assoc (a b c : string) : (a ++ b) ++ c = a ++ (b ++ c).
Proof.
  induction a as [|x a IH]; simpl; [reflexivity | now rewrite IH].
Qed.

Lemma append_inj_length (a a' b b' : string) :
  a ++ b = a' ++ b' -> String.length a = String.length a' ->
  a = a' /\ b = b'.
Proof.
  revert a'; induction a as [|x a IH]; intros [|y a'] Heq Hlen;
    simpl in *; try discriminate.
  - now split.
  - injection Heq as -> Heq. injection Hlen as Hlen.
    destruct (IH a' Heq Hlen) as [-> ->]. now split.
Qed.

Lemma prefix_append (p s : string) :
  prefix p s = true <-> exists b, s = p ++ b.
Proof.
  revert s; induction p as [|x p IH]; intros s.
  - split; [intros _; now exists s | intros _; now destruct s].
  - destruct s as [|y s]; simpl.
    + split; [discriminate | intros [b Hb]; discriminate].
    + destruct (Ascii.ascii_dec x y) as [->|Hxy].
      * rewrite IH. split; intros [b Hb]; exists b.
        -- now rewrite Hb.
        -- now injection Hb.
      * split; [discriminate | intros [b Hb]; injection Hb as <- _].
        now contradiction Hxy.
Qed.

Lemma skip_append (p b : string) : PyStr.skip (String.length p) (p ++ b) = b.
Proof. induction p as [|x p IH]; simpl; [now destruct b | exact IH]. Qed.

Lemma occurs_at_zero (sub s : string) :
  PyStr.occurs_at sub s 0 <-> prefix sub s = true.
Proof.
  rewrite prefix_append. split.
  - intros (a & b & -> & Hlen). destruct a; [|discriminate]. now exists b.
  - intros [b ->]. now exists EmptyString, b.
Qed.

Lemma occurs_at_succ (sub : string) (c : ascii) (s : string) (i : nat) :
  PyStr.occurs_at sub (String c s) (S i) <-> PyStr.occurs_at sub s i.
Proof.
  split.
  - intros (a & b & Heq & Hlen). destruct a as [|x a]; [discriminate|].
    simpl in *. injection Heq as _ ->. injection Hlen as Hlen.
    now exists a, b.
  - intros (a & b & -> & Hlen). exists (String c a), b.
    simpl. now rewrite Hlen.
Qed.

Lemma occurs_at_empty (x : ascii) (sub : string) (i : nat) :
  ~ PyStr.occurs_at (String x sub) EmptyString i.
Proof. intros (a & b & Heq & _). now destruct a. Qed.

(** [in] finds an occurrence exactly when there is one. *)
Lemma contains_occurs (x : ascii) (sub s : string) :
  PyStr.contains (String x sub) s = true <->
  exists i, PyStr.occurs_at (String x sub) s i.
Proof.
  induction s as [|c s IH].
  - simpl. split; [discriminate|].
    intros [i Hi]. now apply occurs_at_empty in Hi.
  - cbn [PyStr.contains]. rewrite orb_true_iff, IH, <- occurs_at_zero.
    split.
    + intros [H0 | [i Hi]]; [now exists 0 |].
      exists (S i). now apply occurs_at_succ.
    + intros [[|i] Hi]; [now left | right].
      exists i. now apply occurs_at_succ in Hi.
Qed.

(** [rsplit(sep, 1)] cuts at the last occurrence of the separator. *)
Lemma rpartition_spec (x : ascii) (sub s : string) :
  match PyStr.rpartition (String x sub) s with
  | Some (a, b) =>
      s = a ++ String x sub ++ b /\
      forall i, PyStr.occurs_at (String x sub) s i -> i <= String.length a
  | None => forall i, ~ PyStr.occurs_at (String x sub) s i
  end.
Proof.
  induction s as [|c s IH].
  - simpl. intros i. apply occurs_at_empty.
  - cbn [PyStr.rpartition].
    destruct (PyStr.rpartition (String x sub) s) as [[a b]|].
    + destruct IH as [-> Hmax]. split; [reflexivity|].
      intros [|i] Hi; [simpl; lia|].
      apply occurs_at_succ, Hmax in Hi. simpl. lia.
    + destruct (prefix (String x sub) (String c s)) eqn:Hp.
      * split.
        -- apply prefix_append in Hp as [b Hb]. rewrite Hb at 1 2.
           now rewrite skip_append.
        -- intros [|i] Hi; [simpl; lia|].
           apply occurs_at_succ in Hi. now apply IH in Hi.
      * intros [|i] Hi.
        -- apply occurs_at_zero in Hi. congruence.
        -- apply occurs_at_succ in Hi. now apply IH in Hi.
Qed.

End StringFacts.

(** ** The filter key grammar *)

Lemma final_dunder_rpartition (key field suffix : string) :
  final_dunder key field suffix <->
  PyStr.rpartition "__" key = Some (field, suffix).
Proof.
  pose proof (rpartition_spec "_" "_" key) as Hspec.
  split.
  - intros [Hkey Hmax].
    destruct (PyStr.rpartition "__" key) as [[a b]|].
    + destruct Hspec as [Ha Hamax].
      assert (Hlen : String.length a = String.length field).
      { apply Nat.le_antisymm.
        - apply Hmax. now exists a, b.
        - apply Hamax. now exists field, suffix. }
      rewrite Hkey in Ha.
      destruct (append_inj_length _ _ _ _ Ha (eq_sym Hlen)) as [-> Hb].
      now injection Hb as ->.
    + exfalso. apply (Hspec (String.length field)). now exists field, suffix.
  - intros Hr. rewrite Hr in Hspec. exact Hspec.
Qed.

Lemma operator_known (suffix : string) :
  PyDict.mem Query.OPERATORS ("__" ++ suffix) = true <->
  In suffix operator_names.
Proof.
  unfold PyDict.mem, operator_names. simpl.
  destruct (String.eqb_spec suffix "exact") as [->|H1]; [intuition|].
  destruct (String.eqb_spec suffix "gt") as [->|H2]; [intuition|].
  destruct (String.eqb_spec suffix "lt") as [->|H3]; [intuition|].
  destruct (String.eqb_spec suffix "like") as [->|H4]; [intuition|].
  split; [discriminate|]. intuition congruence.
Qed.

(** C6.  A key without a double underscore, or whose text after the last
    double underscore is not one of exact, gt, lt, like, is returned whole
    as the field name with operator [__exact]; when that text is one of the
    four, the field name is what precedes the last double underscore and
    the operator is the suffix. *)
Theorem parse_filter_key_grammar (key : string) :
  ((forall i, ~ PyStr.occurs_at "__" key i) ->
   Query.parse_filter_key key = (key, "__exact")) /\
  (forall field suffix,
      final_dunder key field suffix ->
      (~ In suffix operator_names ->
       Query.parse_filter_key key = (key, "__exact")) /\
      (In suffix operator_names ->
       Query.parse_filter_key key = (field, "__" ++ suffix))).
Proof.
  unfold Query.parse_filter_key. split.
  - intros Hnone.
    destruct (PyStr.contains "__" key) eqn:Hc; [|reflexivity].
    apply contains_occurs in Hc as [i Hi]. now apply Hnone in Hi.
  - intros field suffix Hfinal.
    assert (Hc : PyStr.contains "__" key = true).
    { apply contains_occurs. exists (String.length field).
      destruct Hfinal as [-> _]. now exists field, suffix. }
    apply final_dunder_rpartition in Hfinal.
    unfold PyStr.rsplit1. rewrite Hc, Hfinal. cbn [negb].
    split; intros Hin.
    + destruct (PyDict.mem Query.OPERATORS ("__" ++ suffix)) eqn:Hm;
        [|reflexivity].
      now apply operator_known in Hm.
    + apply operator_known in Hin. now rewrite Hin.
Qed.

Lemma no_dunder_by_test (key : string) :
  PyStr.contains "__" key = false -> forall i, ~ PyStr.occurs_at "__" key i.
Proof.
  intros Hc i Hi.
  assert (Ht : PyStr.contains "__" key = true)
    by (apply contains_occurs; now exists i).
  congruence.
Qed.

Lemma parse_filter_key_grammar_witness :
  Query.parse_filter_key "name" = ("name", "__exact") /\
  (final_dunder "age___gt" "age_" "gt" /\
   In "gt" operator_names /\
   Query.parse_filter_key "age___gt" = ("age_", "__gt")) /\
  (final_dunder "created__at" "created" "at" /\
   ~ In "at" operator_names /\
   Query.parse_filter_key "created__at" = ("created__at", "__exact")).
Proof.
  split; [|split].
  - apply (proj1 (parse_filter_key_grammar "name")).
    apply no_dunder_by_test. reflexivity.
  - assert (H : final_dunder "age___gt" "age_" "gt")
      by (apply final_dunder_rpartition; reflexivity).
    assert (Hin : In "gt" operator_names) by (simpl; auto).
    split; [exact H | split; [exact Hin|]].
    exact (proj2 (proj2 (parse_filter_key_grammar "age___gt") "age_" "gt" H)
             Hin).
  - assert (H : final_dunder "created__at" "created" "at")
      by (apply final_dunder_rpartition; reflexivity).
    assert (Hout : ~ In "at" operator_names).
    { simpl. intros [E|[E|[E|[E|[]]]]]; discriminate E. }
    split; [exact H | split; [exact Hout|]].
    exact (proj1 (proj2 (parse_filter_key_grammar "created__at")
                    "created" "at" H) Hout).
Defined.

(** ** Operators *)

Lemma parse_filter_key_operator (key : string) :
  PyDict.mem Query.OPERATORS (snd (Query.parse_filter_key key)) = true.
Proof.
  unfold Query.parse_filter_key.
  destruct (negb (PyStr.contains "__" key)); [reflexivity|].
  destruct (PyStr.rsplit1 "__" key) as [|a [|b [|c l]]]; try reflexivity.
  destruct (PyDict.mem Query.OPERATORS ("__" ++ b)) eqn:Hm;
    [exact Hm | reflexivity].
Qed.

Lemma parse_filters_loop_ok (items : list (string * pyvalue)) :
  forall conditions values,
  exists cs vs,
    Query.parse_filters_loop items conditions values = Ok (cs, vs) /\
    List.length cs = List.length conditions + List.length items.
Proof.
  induction items as [|[key value] items IH]; intros conditions values.
  - exists conditions, values. simpl. split; [reflexivity | lia].
  - cbn [Query.parse_filters_loop].
    pose proof (parse_filter_key_operator key) as Hop.
    destruct (Query.parse_filter_key key) as [field_name operator].
    unfold PyDict.mem in Hop. cbn [snd] in Hop.
    destruct (PyDict.get Query.OPERATORS operator) as [sql_operator|];
      [|discriminate].
    destruct (IH (conditions ++ [Query.Condition field_name sql_operator])%list
                 (values ++ [value])%list) as (cs & vs & Heq & Hlen).
    exists cs, vs. split; [exact Heq|].
    rewrite Hlen, length_app. simpl. lia.
Qed.

Lemma parse_filters_ok (kwargs : PyDict.dict pyvalue) :
  exists w vs, Query.parse_filters kwargs = Ok (w, vs).
Proof.
  unfold Query.parse_filters.
  destruct (parse_filters_loop_ok kwargs [] []) as (cs & vs & -> & _).
  eauto.
Qed.

(** ** Dictionaries *)

Section DictFacts.
Context {V : Type}.
Implicit Types (d : PyDict.dict V) (k : string) (v : V).

Lemma get_set d k k' v :
  PyDict.get (PyDict.set d k v) k' =
  if String.eqb k' k then Some v else PyDict.get d k'.
Proof.
  induction d as [|[k0 v0] d IH]; simpl.
  - reflexivity.
  - destruct (String.eqb_spec k k0) as [->|Hk]; simpl.
    + now destruct (String.eqb k' k0).
    + rewrite IH. destruct (String.eqb_spec k' k0) as [->|Hk'];
        [|reflexivity].
      destruct (String.eqb_spec k0 k) as [->|_]; [now contradiction Hk|].
      reflexivity.
Qed.

Lemma get_set_same d k v : PyDict.get (PyDict.set d k v) k = Some v.
Proof. now rewrite get_set, String.eqb_refl. Qed.

Lemma get_set_other d k k' v :
  k' <> k -> PyDict.get (PyDict.set d k v) k' = PyDict.get d k'.
Proof.
  intros Hk. rewrite get_set.
  now destruct (String.eqb_spec k' k) as [->|_]; [contradiction Hk|].
Qed.

Lemma get_In d k v : PyDict.get d k = Some v -> In (k, v) d.
Proof.
  induction d as [|[k0 v0] d IH]; simpl; [discriminate|].
  destruct (String.eqb_spec k k0) as [->|Hk].
  - intros [= ->]. now left.
  - intros H. right. now apply IH.
Qed.

Lemma get_None_keys d k : PyDict.get d k = None <-> ~ In k (PyDict.keys d).
Proof.
  induction d as [|[k0 v0] d IH]; simpl; [tauto|].
  destruct (String.eqb_spec k k0) as [->|Hk].
  - split; [discriminate | intros H; exfalso; apply H; now left].
  - rewrite IH. split; intros H; [intros [E|E]; congruence | tauto].
Qed.

Lemma In_get d k v :
  NoDup (PyDict.keys d) -> In (k, v) d -> PyDict.get d k = Some v.
Proof.
  induction d as [|[k0 v0] d IH]; simpl; [tauto|].
  intros Hnd [Hin|Hin]; inversion Hnd as [|? ? Hnotin Hnd']; subst.
  - injection Hin as -> ->. now rewrite String.eqb_refl.
  - destruct (String.eqb_spec k k0) as [->|Hk]; [|now apply IH].
    exfalso. apply Hnotin. now apply (in_map fst) in Hin.
Qed.

Lemma keys_set d k v :
  PyDict.keys (PyDict.set d k v) =
  if PyDict.mem d k then PyDict.keys d else (PyDict.keys d ++ [k])%list.
Proof.
  unfold PyDict.mem.
  induction d as [|[k0 v0] d IH]; simpl; [reflexivity|].
  destruct (String.eqb_spec k k0) as [->|Hk]; simpl; [reflexivity|].
  rewrite IH. now destruct (PyDict.get d k).
Qed.

Lemma NoDup_keys_set d k v :
  NoDup (PyDict.keys d) -> NoDup (PyDict.keys (PyDict.set d k v)).
Proof.
  intros Hnd. rewrite keys_set. unfold PyDict.mem.
  destruct (PyDict.get d k) eqn:Hg; [exact Hnd|].
  apply get_None_keys in Hg.
  apply NoDup_app; [exact Hnd | repeat constructor; simpl; tauto |].
  intros x Hx [<-|[]]. contradiction.
Qed.

End DictFacts.

(** ** The value codec *)

Lemma get_field_type_supported (T : FieldTypes.annotation) :
  In T FieldTypes.supported ->
  exists sqlite_type,
    FieldTypes.get_field_type T = Some (FieldTypes.mkFieldType sqlite_type T).
Proof.
  intros [<-|[<-|[<-|[<-|[]]]]]; eexists; reflexivity.
Qed.

(** [Optional[T]] maps like [T]. *)
Lemma get_field_type_optional (origin : string) (T : FieldTypes.annotation) :
  In T FieldTypes.supported ->
  FieldTypes.get_field_type
    (FieldTypes.T_alias origin [T; FieldTypes.T_NoneType]) =
  FieldTypes.get_field_type T.
Proof.
  intros [<-|[<-|[<-|[<-|[]]]]]; reflexivity.
Qed.

(** C5.  For each of the four supported types, decoding what encoding
    produced gives the value back; booleans go to 1 and 0 and back; [None]
    goes through both directions unchanged, whatever the annotation. *)
Theorem codec_round_trip :
  (forall T v,
      In T FieldTypes.supported ->
      FieldTypes.isinstance v T = true \/ v = PyNone ->
      FieldTypes.from_db_value (FieldTypes.to_db_value v T) T = v) /\
  (forall b : bool,
      FieldTypes.to_db_value (PyBool b) FieldTypes.T_bool
      = PyInt (if b then 1 else 0) /\
      FieldTypes.from_db_value (PyInt (if b then 1 else 0)) FieldTypes.T_bool
      = PyBool b) /\
  (forall a,
      FieldTypes.to_db_value PyNone a = PyNone /\
      FieldTypes.from_db_value PyNone a = PyNone).
Proof.
  split; [|split].
  - intros T v HT [Hv | ->].
    + destruct HT as [<-|[<-|[<-|[<-|[]]]]];
        destruct v as [|b|z|bits|s]; try discriminate Hv;
        try reflexivity.
      now destruct b.
    + destruct HT as [<-|[<-|[<-|[<-|[]]]]]; reflexivity.
  - intros [|]; split; reflexivity.
  - intros a. unfold FieldTypes.to_db_value, FieldTypes.from_db_value.
    destruct (FieldTypes.get_field_type a); split; reflexivity.
Qed.

Lemma codec_round_trip_witness :
  In FieldTypes.T_bool FieldTypes.supported /\
  FieldTypes.from_db_value
    (FieldTypes.to_db_value (PyBool true) FieldTypes.T_bool)
    FieldTypes.T_bool = PyBool true.
Proof.
  assert (H : In FieldTypes.T_bool FieldTypes.supported)
    by (simpl; tauto).
  split; [exact H|].
  apply (proj1 codec_round_trip FieldTypes.T_bool (PyBool true) H).
  left. reflexivity.
Defined.

(** ** Metadata derivation *)

Lemma fold_left_invariant {A B : Type} (P : A -> Prop) (f : A -> B -> A)
    (l : list B) :
  forall a, P a -> (forall a b, P a -> In b l -> P (f a b)) ->
            P (fold_left f l a).
Proof.
  induction l as [|b l IH]; intros a Ha Hstep; simpl; [exact Ha|].
  apply IH.
  - apply Hstep; [exact Ha | now left].
  - intros a' b' Ha' Hb'. apply Hstep; [exact Ha' | now right].
Qed.

Lemma type_hints_NoDup (cls : BaseModel.class_object) :
  NoDup (PyDict.keys (BaseModel.get_type_hints cls)).
Proof.
  unfold BaseModel.get_type_hints.
  apply fold_left_invariant; [constructor|].
  intros hints base Hnd _.
  apply fold_left_invariant; [exact Hnd|].
  intros hints' item Hnd' _. now apply NoDup_keys_set.
Qed.

(** The hints of a class depend on its annotations and bases only. *)
Lemma type_hints_same name bases annotations namespace Meta _meta
    Meta' _meta' :
  BaseModel.get_type_hints
    (BaseModel.Class name bases annotations namespace Meta _meta) =
  BaseModel.get_type_hints
    (BaseModel.Class name bases annotations namespace Meta' _meta').
Proof.
  unfold BaseModel.get_type_hints. cbn [BaseModel.mro rev].
  now rewrite !fold_left_app.
Qed.

(** A field enters the metadata only with a field type. *)
Lemma derive_fields_excludes cls hints field_name u :
  NoDup (PyDict.keys hints) ->
  PyDict.get hints field_name = Some u ->
  FieldTypes.get_field_type u = None ->
  PyDict.mem (BaseModel.derive_fields cls hints) field_name = false.
Proof.
  intros Hnd Hget Hnone. unfold PyDict.mem, BaseModel.derive_fields.
  match goal with
  | |- match PyDict.get ?d _ with _ => _ end = _ =>
      enough (H : PyDict.get d field_name = None) by now rewrite H
  end.
  apply fold_left_invariant; [reflexivity|].
  intros fields [k a] Hacc Hin. unfold BaseModel.derive_field.
  cbn [fst snd].
  destruct (PyStr.startswith k "_" || String.eqb k "Meta"
            || String.eqb k "id"); [exact Hacc|].
  assert (Hstep : match FieldTypes.get_field_type a with
                  | Some field_type =>
                      PyDict.get
                        (PyDict.set fields k
                           (BaseModel.mkField a
                              (FieldTypes.sqlite_type field_type)
                              (FieldTypes.python_type field_type)))
                        field_name
                  | None => PyDict.get fields field_name
                  end = None).
  { destruct (FieldTypes.get_field_type a) eqn:Ha; [|exact Hacc].
    rewrite get_set.
    destruct (String.eqb_spec field_name k) as [->|_]; [|exact Hacc].
    apply (In_get _ _ _ Hnd) in Hin. congruence. }
  destruct (BaseModel.class_getattr cls k) as [[v|f|]|];
    [| exact Hacc | exact Hacc |];
    destruct (FieldTypes.get_field_type a); exact Hstep.
Qed.

Lemma ModelMeta_new_fields name bases body m :
  BaseModel.cls__meta (BaseModel.ModelMeta_new name bases body) = Some m ->
  exists cls,
    BaseModel.fields m =
    BaseModel.derive_fields cls
      (BaseModel.get_type_hints (BaseModel.ModelMeta_new name bases body)).
Proof.
  unfold BaseModel.ModelMeta_new.
  match goal with
  | |- context [if ?c then _ else _] => destruct c
  end; cbn [BaseModel.cls__meta]; [discriminate|].
  intros [= <-]. cbn [BaseModel.fields].
  eexists. f_equal. apply type_hints_same.
Qed.

(** One round of the field loop, by whether the name is passed over. *)
Lemma derive_field_step cls fields k a :
  BaseModel.derive_field cls fields (k, a)
  = if skipped cls k then fields
    else match FieldTypes.get_field_type a with
         | Some field_type =>
             PyDict.set fields k
               (BaseModel.mkField a (FieldTypes.sqlite_type field_type)
                  (FieldTypes.python_type field_type))
         | None => fields
         end.
Proof.
  unfold BaseModel.derive_field. cbn [fst snd]. unfold skipped, is_function.
  destruct (PyStr.startswith k "_" || String.eqb k "Meta"
            || String.eqb k "id"); [reflexivity|].
  cbn [orb].
  destruct (BaseModel.class_getattr cls k) as [[v|f|]|]; reflexivity.
Qed.

(** A name the loop passes over is no field. *)
Lemma derive_fields_skips cls hints field_name :
  skipped cls field_name = true ->
  PyDict.mem (BaseModel.derive_fields cls hints) field_name = false.
Proof.
  intros Hskip. unfold PyDict.mem, BaseModel.derive_fields.
  match goal with
  | |- match PyDict.get ?d _ with _ => _ end = _ =>
      enough (H : PyDict.get d field_name = None) by now rewrite H
  end.
  apply fold_left_invariant; [reflexivity|].
  intros fields [k a] Hacc _. rewrite derive_field_step.
  destruct (skipped cls k) eqn:Hk; [exact Hacc|].
  destruct (FieldTypes.get_field_type a); [|exact Hacc].
  rewrite get_set_other; [exact Hacc|]. intros ->. congruence.
Qed.

(** The rounds for other names leave a name as it is. *)
Lemma derive_fields_keeps cls hints field_name :
  ~ In field_name (PyDict.keys hints) ->
  forall fields,
    PyDict.get (fold_left (BaseModel.derive_field cls) hints fields)
      field_name
    = PyDict.get fields field_name.
Proof.
  induction hints as [|[k a] hints IH]; intros Hnotin fields;
    [reflexivity|].
  cbn [fold_left].
  assert (Hk : field_name <> k).
  { intros ->. apply Hnotin. now left. }
  assert (Hrest : ~ In field_name (PyDict.keys hints)).
  { intros Hin. apply Hnotin. now right. }
  rewrite (IH Hrest), derive_field_step.
  destruct (skipped cls k); [reflexivity|].
  destruct (FieldTypes.get_field_type a); [|reflexivity].
  now apply get_set_other.
Qed.

(** A name the loop does not pass over, with an annotation that has a
    field type, is a field, with that annotation and that type. *)
Lemma derive_fields_includes cls hints field_name u ft :
  NoDup (PyDict.keys hints) ->
  PyDict.get hints field_name = Some u ->
  FieldTypes.get_field_type u = Some ft ->
  skipped cls field_name = false ->
  PyDict.get (BaseModel.derive_fields cls hints) field_name
  = Some (BaseModel.mkField u (FieldTypes.sqlite_type ft)
            (FieldTypes.python_type ft)).
Proof.
  intros Hnd Hget Hft Hskip. unfold BaseModel.derive_fields.
  apply get_In in Hget. generalize (@nil (string * BaseModel.field)).
  induction hints as [|[k a] hints IH]; intros acc; [destruct Hget|].
  cbn [fold_left]. rewrite derive_field_step.
  inversion Hnd as [|? ? Hnotin Hnd']; subst.
  destruct Hget as [[= -> ->]|Hin]; [|now apply IH].
  rewrite Hskip, Hft.
  rewrite derive_fields_keeps by exact Hnotin. apply get_set_same.
Qed.

(** The fields are derived from the hints of the class by the field loop,
    which looks attributes up on the class as it is once made. *)
Lemma ModelMeta_new_derives name bases body m :
  BaseModel.cls__meta (BaseModel.ModelMeta_new name bases body) = Some m ->
  exists cls,
    BaseModel.fields m =
    BaseModel.derive_fields cls
      (BaseModel.get_type_hints (BaseModel.ModelMeta_new name bases body)) /\
    forall field_name,
      skipped cls field_name
      = skipped (BaseModel.ModelMeta_new name bases body) field_name.
Proof.
  unfold BaseModel.ModelMeta_new.
  match goal with
  | |- context [if ?c then _ else _] => destruct c
  end; cbn [BaseModel.cls__meta]; [discriminate|].
  intros [= <-]. cbn [BaseModel.fields].
  eexists. split; [f_equal; apply type_hints_same|].
  intros field_name. reflexivity.
Qed.

(** C3, where it fails as stated.  A field declared [int | str | float] gets the
    field type of [int] and is part of the persisted metadata. *)
Lemma three_way_union_is_mapped :
  FieldTypes.get_field_type
    (FieldTypes.T_alias "Union"
       [FieldTypes.T_int; FieldTypes.T_str; FieldTypes.T_float])
  = Some (FieldTypes.mkFieldType "INTEGER" FieldTypes.T_int) /\
  option_map (fun m => PyDict.keys (BaseModel.fields m))
    (BaseModel.cls__meta Demo.Reading) = Some ["sensor"; "value"].
Proof. split; reflexivity. Qed.

(** C3, as the code has it.  A union of exactly two alternatives, neither
    of them [None], has no field type; a parameterised annotation with
    three or more arguments is mapped as its first argument is.  For a
    concrete class in a chain of single bases: a field whose annotation
    has no field type is left out of the metadata the metaclass derives;
    a field whose annotation has a field type is in the metadata, with
    that annotation, column type and Python type, unless the field loop
    passes over its name (a leading underscore, [Meta], [id], or a name
    the class has or inherits as a function or method); and a name the
    loop passes over is no field whatever its annotation. *)
Theorem union_field_types :
  (forall origin a b,
      FieldTypes.none_arg a = false ->
      FieldTypes.none_arg b = false ->
      FieldTypes.get_field_type (FieldTypes.T_alias origin [a; b]) = None) /\
  (forall origin a b c rest,
      FieldTypes.get_field_type
        (FieldTypes.T_alias origin (a :: b :: c :: rest))
      = FieldTypes.TYPE_MAPPING_get a) /\
  (forall name bases body field_name u m,
      BaseModel.single_inheritance (BaseModel.ModelMeta_new name bases body)
      = true ->
      PyDict.get
        (BaseModel.get_type_hints (BaseModel.ModelMeta_new name bases body))
        field_name = Some u ->
      FieldTypes.get_field_type u = None ->
      BaseModel.cls__meta (BaseModel.ModelMeta_new name bases body) = Some m ->
      PyDict.mem (BaseModel.fields m) field_name = false) /\
  (forall name bases body field_name u ft m,
      BaseModel.single_inheritance (BaseModel.ModelMeta_new name bases body)
      = true ->
      PyDict.get
        (BaseModel.get_type_hints (BaseModel.ModelMeta_new name bases body))
        field_name = Some u ->
      FieldTypes.get_field_type u = Some ft ->
      skipped (BaseModel.ModelMeta_new name bases body) field_name = false ->
      BaseModel.cls__meta (BaseModel.ModelMeta_new name bases body) = Some m ->
      PyDict.get (BaseModel.fields m) field_name
      = Some (BaseModel.mkField u (FieldTypes.sqlite_type ft)
                (FieldTypes.python_type ft))) /\
  (forall name bases body field_name m,
      BaseModel.single_inheritance (BaseModel.ModelMeta_new name bases body)
      = true ->
      skipped (BaseModel.ModelMeta_new name bases body) field_name = true ->
      BaseModel.cls__meta (BaseModel.ModelMeta_new name bases body) = Some m ->
      PyDict.mem (BaseModel.fields m) field_name = false).
Proof.
  split; [|split; [|split; [|split]]].
  - intros origin a b Ha Hb. unfold FieldTypes.get_field_type.
    cbn [FieldTypes.annotation_eqb FieldTypes.get_origin FieldTypes.get_args
         List.length Nat.eqb existsb].
    now rewrite Ha, Hb.
  - intros origin a b c rest. reflexivity.
  - intros name bases body field_name u m _ Hget Hnone Hmeta.
    destruct (ModelMeta_new_fields _ _ _ _ Hmeta) as [cls ->].
    apply (derive_fields_excludes _ _ _ u);
      [apply type_hints_NoDup | exact Hget | exact Hnone].
  - intros name bases body field_name u ft m _ Hget Hft Hskip Hmeta.
    destruct (ModelMeta_new_derives _ _ _ _ Hmeta) as (cls & -> & Hsame).
    apply derive_fields_includes;
      [apply type_hints_NoDup | exact Hget | exact Hft |].
    now rewrite Hsame.
  - intros name bases body field_name m _ Hskip Hmeta.
    destruct (ModelMeta_new_derives _ _ _ _ Hmeta) as (cls & -> & Hsame).
    apply derive_fields_skips. now rewrite Hsame.
Qed.

Lemma union_field_types_witness :
  FieldTypes.get_field_type
    (FieldTypes.T_alias "Union" [FieldTypes.T_int; FieldTypes.T_str]) = None /\
  (exists m,
      BaseModel.cls__meta Demo.Ticket = Some m /\
      PyDict.keys (BaseModel.fields m) = ["title"] /\
      PyDict.mem (BaseModel.fields m) "code" = false) /\
  (exists m,
      BaseModel.cls__meta Demo.Reading = Some m /\
      PyDict.get (BaseModel.fields m) "value"
      = Some (BaseModel.mkField
                (FieldTypes.T_alias "Union"
                   [FieldTypes.T_int; FieldTypes.T_str; FieldTypes.T_float])
                "INTEGER" FieldTypes.T_int)) /\
  (exists m,
      BaseModel.cls__meta Demo.Job = Some m /\
      PyDict.mem (BaseModel.fields m) "delete" = false).
Proof.
  destruct union_field_types as (Htwo & _ & Hout & Hin & Hskip).
  split; [apply Htwo; reflexivity|].
  split; [|split].
  - eexists. split; [reflexivity|]. split; [reflexivity|].
    apply (Hout "Ticket" [BaseModel.Model]
             (BaseModel.mkBody
                [ ("title", FieldTypes.T_str);
                  ("code", FieldTypes.T_alias "Union"
                             [FieldTypes.T_int; FieldTypes.T_str]) ]
                []
                (Some (BaseModel.mkMeta None (Some (Some "tickets")))))
             "code"
             (FieldTypes.T_alias "Union" [FieldTypes.T_int; FieldTypes.T_str]));
      reflexivity.
  - eexists. split; [reflexivity|].
    apply (Hin "Reading" [BaseModel.Model]
             (BaseModel.mkBody
                [ ("sensor", FieldTypes.T_str);
                  ("value", FieldTypes.T_alias "Union"
                              [FieldTypes.T_int; FieldTypes.T_str;
                               FieldTypes.T_float]) ]
                []
                (Some (BaseModel.mkMeta None (Some (Some "readings")))))
             "value"
             (FieldTypes.T_alias "Union"
                [FieldTypes.T_int; FieldTypes.T_str; FieldTypes.T_float])
             (FieldTypes.mkFieldType "INTEGER" FieldTypes.T_int));
      reflexivity.
  - eexists. split; [reflexivity|].
    apply (Hskip "Job" [BaseModel.Model]
             (BaseModel.mkBody
                [ ("title", FieldTypes.T_str);
                  ("delete", FieldTypes.T_alias "Union"
                               [FieldTypes.T_int; FieldTypes.T_str;
                                FieldTypes.T_float]) ]
                []
                (Some (BaseModel.mkMeta None (Some (Some "jobs"))))));
      reflexivity.
Defined.

(** ** The connection *)

Lemma connection_execute (db : Connection.DatabaseConnection)
    (q : Sqlite.statement) (ps : list pyvalue) :
  Connection.execute db q ps =
  let log := (Connection.calls db ++ [Connection.Execute q ps])%list in
  match Sqlite.execute (Connection.database db) q ps with
  | Ok (cur, d') => (Ok cur, Connection.mkConnection true d' log)
  | Raise e =>
      (Raise e, Connection.mkConnection true (Connection.database db) log)
  end.
Proof.
  unfold Connection.execute, Connection.connect.
  destruct db as [[|] d l]; cbn;
    destruct (Sqlite.execute d q ps) as [[cur d']|e]; reflexivity.
Qed.

Lemma is_abstract_false (cls : BaseModel.class_object) :
  BaseModel.is_abstract cls = false <->
  exists m, BaseModel.getattr__meta cls = Some m /\
            BaseModel.meta_abstract m = false.
Proof.
  unfold BaseModel.is_abstract.
  destruct (BaseModel.getattr__meta cls) as [m|].
  - split; [intros H; now exists m | now intros (m' & [= <-] & H)].
  - split; [discriminate | now intros (m' & [=] & _)].
Qed.






(** ** Errors of the engine *)

Lemma quiet_rbind {A B : Type} (r : result A) (k : A -> result B) :
  quiet r -> (forall a, quiet (k a)) -> quiet (rbind r k).
Proof. destruct r as [a|e]; simpl; auto. Qed.

Lemma quiet_rmap {A B : Type} (f : A -> result B) (xs : list A) :
  (forall x, quiet (f x)) -> quiet (rmap f xs).
Proof.
  intros Hf. induction xs as [|x xs IH]; simpl; [exact I|].
  apply quiet_rbind; [apply Hf|]. intros y.
  apply quiet_rbind; [exact IH|]. now intros ys.
Qed.

Lemma quiet_rfilter {A : Type} (f : A -> result bool) (xs : list A) :
  (forall x, quiet (f x)) -> quiet (rfilter f xs).
Proof.
  intros Hf. induction xs as [|x xs IH]; simpl; [exact I|].
  apply quiet_rbind; [apply Hf|]. intros keep.
  apply quiet_rbind; [exact IH|]. now intros ys.
Qed.

Ltac quiet_step :=
  match goal with
  | |- quiet (Ok _) => exact I
  | |- quiet (Raise _) => reflexivity
  | |- quiet (rbind _ _) => apply quiet_rbind; [|intros ?]
  | |- quiet (rmap _ _) => apply quiet_rmap; intros ?
  | |- quiet (rfilter _ _) => apply quiet_rfilter; intros ?
  | |- quiet (if ?c then _ else _) => destruct c
  | |- quiet (match ?x with _ => _ end) => destruct x
  end.

Lemma quiet_bind_value v : quiet (Sqlite.bind_value v).
Proof. unfold Sqlite.bind_value. repeat quiet_step. Qed.

Lemma quiet_with_parameters {A : Type} n ps
    (k : list Sqlite.sqlval -> result A) :
  (forall vs, quiet (k vs)) -> quiet (Sqlite.with_parameters n ps k).
Proof.
  intros Hk. unfold Sqlite.with_parameters, Sqlite.bind_values.
  repeat quiet_step; auto using quiet_bind_value.
Qed.

Lemma quiet_compare a b : quiet (Sqlite.compare_values a b).
Proof. unfold Sqlite.compare_values. repeat quiet_step. Qed.

Lemma quiet_is_row idv r : quiet (Sqlite.is_row idv r).
Proof.
  unfold Sqlite.is_row. repeat quiet_step. apply quiet_compare.
Qed.

Lemma quiet_holds r c p : quiet (Sqlite.holds r c p).
Proof.
  unfold Sqlite.holds.
  repeat (quiet_step; try apply quiet_compare).
Qed.

Lemma quiet_matches w ps r : quiet (Sqlite.matches w ps r).
Proof.
  unfold Sqlite.matches.
  destruct w as [[|cs]|];
    [ destruct ps; repeat (quiet_step; try apply quiet_compare)
    | | destruct ps; repeat quiet_step ].
  revert ps.
  induction cs as [|c cs IH]; intros [|p ps]; cbn [Sqlite.holds_all];
    repeat (quiet_step || apply quiet_holds || apply IH).
Qed.

Lemma quiet_store_all tbl names vs : quiet (Sqlite.store_all tbl names vs).
Proof.
  revert vs.
  induction names as [|c names IH]; intros [|v vs]; cbn [Sqlite.store_all];
    repeat (quiet_step || apply IH || unfold Sqlite.store).
Qed.

(** The engine never raises a [ValueError]. *)
Lemma quiet_execute db q ps : quiet (Sqlite.execute db q ps).
Proof.
  unfold Sqlite.execute, Sqlite.lookup_table, Sqlite.check_columns,
    Sqlite.check_where, Sqlite.check_columns.
  destruct q.
  - apply quiet_with_parameters. intros vs. repeat quiet_step.
  - apply quiet_with_parameters. intros vs. repeat quiet_step.
  - repeat (quiet_step
            || (apply quiet_with_parameters; intros ?)
            || apply quiet_store_all).
  - repeat (quiet_step
            || (apply quiet_with_parameters; intros ?)
            || apply quiet_matches).
  - repeat (quiet_step
            || (apply quiet_with_parameters; intros ?)
            || apply quiet_store_all || apply quiet_is_row).
  - repeat (quiet_step
            || (apply quiet_with_parameters; intros ?)
            || apply quiet_is_row).
Qed.

(** ** Filtering *)


Lemma check_fields_raise cls fields keys e :
  BaseModel.check_fields cls fields keys = Raise e ->
  exists field_name, e = BaseModel.unknown_field field_name cls.
Proof.
  induction keys as [|k keys IH]; cbn [BaseModel.check_fields];
    [discriminate|].
  destruct (negb (PyDict.mem fields (fst (Query.parse_filter_key k)))
            && negb (String.eqb (fst (Query.parse_filter_key k)) "id")).
  - intros [= <-]. eauto.
  - exact IH.
Qed.



Lemma user_meta :
  BaseModel.getattr__meta Demo.User =
  Some (BaseModel.mkMetadata "users"
          [ ("name", BaseModel.mkField FieldTypes.T_str "TEXT"
                       FieldTypes.T_str);
            ("email", BaseModel.mkField FieldTypes.T_str "TEXT"
                        FieldTypes.T_str);
            ("age", BaseModel.mkField FieldTypes.T_int "INTEGER"
                      FieldTypes.T_int) ]
          false).
Proof. reflexivity. Qed.


Lemma rmap_ok {A B : Type} (f : A -> result B) (xs : list A) :
  (forall x, exists y, f x = Ok y) -> exists ys, rmap f xs = Ok ys.
Proof.
  intros Hf. induction xs as [|x xs [ys IH]]; simpl; [eauto|].
  destruct (Hf x) as [y ->]. rewrite IH. simpl. eauto.
Qed.

Lemma from_db_row_ok cls m row column_names :
  BaseModel.getattr__meta cls = Some m ->
  exists found, BaseModel._from_db_row cls row column_names = Ok found.
Proof.
  intros Hm. unfold BaseModel._from_db_row, BaseModel.get_fields.
  rewrite Hm. simpl. eauto.
Qed.

Lemma ensure_table_unconfigured cls :
  BaseModel.is_abstract cls = false ->
  exists msg,
    BaseModel._ensure_table cls None = (Raise (RuntimeError msg), None).
Proof.
  intros Ha. unfold BaseModel._ensure_table, BaseModel.create_table.
  rewrite Ha. eexists. reflexivity.
Qed.

(** Whatever the names of the type, [_ensure_table] on a configured
    connection leaves a configured connection and raises no
    [ValueError]. *)
Lemma ensure_table_outcome cls db :
  BaseModel.is_abstract cls = false ->
  exists r db',
    BaseModel._ensure_table cls (Some db) = (r, Some db') /\ quiet r.
Proof.
  intros Ha. unfold BaseModel._ensure_table, BaseModel.create_table.
  rewrite Ha. apply is_abstract_false in Ha as (m & Hm & Ha).
  unfold BaseModel.bind, BaseModel.lift, BaseModel._ensure_db_connection,
    BaseModel.get_table_name, BaseModel._table_exists,
    BaseModel.db_execute, BaseModel.bind, BaseModel.ret,
    BaseModel._create_table_sql, BaseModel.get_fields,
    BaseModel.get_table_name, BaseModel.is_abstract, BaseModel.db_commit.
  rewrite Hm, Ha. rewrite connection_execute.
  cbn [Sqlite.execute Sqlite.with_parameters List.length Nat.eqb
       Sqlite.bind_values rmap Sqlite.bind_value rbind Connection.database
       Connection.calls].
  destruct (PyDict.mem (Connection.database db) (BaseModel.table_name m));
    cbn [Sqlite.fetchone Sqlite.fetchall Sqlite.no_rows].
  - eexists. eexists. split; [reflexivity | exact I].
  - rewrite connection_execute. cbn [Connection.database Connection.calls].
    match goal with
    | |- context [Sqlite.execute ?d ?q ?ps] =>
        pose proof (quiet_execute d q ps) as Hq;
        destruct (Sqlite.execute d q ps) as [[cur d']|e]
    end; cbv zeta.
    + unfold Connection.commit. cbn [Connection.connection].
      eexists. eexists. split; [reflexivity | exact I].
    + eexists. eexists. split; [reflexivity | exact Hq].
Qed.

(** C10.  The operator [parse_filter_key] returns is always a key of
    [OPERATORS]; hence [parse_filters] never raises, and no call of
    [filter] ends in the unsupported-operator error. *)
Theorem unsupported_operator_unreachable :
  (forall key,
      PyDict.mem Query.OPERATORS (snd (Query.parse_filter_key key)) = true) /\
  (forall kwargs, exists w vs, Query.parse_filters kwargs = Ok (w, vs)) /\
  (forall cls kwargs world operator,
      fst (BaseModel.filter cls kwargs world)
      <> Raise (Query.unsupported_operator operator)).
Proof.
  split; [exact parse_filter_key_operator|].
  split; [exact parse_filters_ok|].
  intros cls kwargs world operator.
  unfold BaseModel.filter.
  destruct (PyDict.mem kwargs "cls"); [discriminate|].
  destruct (BaseModel.is_abstract cls) eqn:Ha; [discriminate|].
  unfold BaseModel.bind at 1.
  destruct world as [db|].
  2:{ destruct (ensure_table_unconfigured cls Ha) as [msg ->]. discriminate. }
  destruct (ensure_table_outcome cls db Ha) as (r & db' & Hrun & Hq).
  rewrite Hrun.
  destruct r as [[]|e]; [|cbn [fst]; intros [= ->]; discriminate Hq].
  apply is_abstract_false in Ha as (m & Hm & Ha).
  destruct (parse_filters_ok kwargs) as (w & vs & Hparse).
  unfold BaseModel.bind, BaseModel._ensure_db_connection, BaseModel.lift,
    BaseModel.get_table_name, BaseModel.get_fields.
  rewrite Hm, Hparse.
  destruct (BaseModel.check_fields cls (BaseModel.fields m)
              (PyDict.keys kwargs)) as [[]|e] eqn:Hcheck.
  2:{ apply check_fields_raise in Hcheck as [field_name ->]. discriminate. }
  unfold BaseModel.db_execute. rewrite connection_execute.
  pose proof (quiet_execute (Connection.database db')
                (Sqlite.Select ("id" :: PyDict.keys (BaseModel.fields m))
                   (BaseModel.table_name m) (Some (fst (w, vs))))
                (snd (w, vs))) as Hquiet.
  cbv zeta.
  destruct (Sqlite.execute _ _ _) as [[cur d']|e].
  - destruct (rmap_ok
                (fun row =>
                   BaseModel._from_db_row cls row
                     ("id" :: PyDict.keys (BaseModel.fields m)))
                (Sqlite.fetchall cur)) as [found Hfound].
    + intros row. now apply (from_db_row_ok cls m).
    + cbn [fst]. rewrite Hfound. discriminate.
  - cbn [fst]. intros [= ->]. discriminate Hquiet.
Qed.

(** ** Validation *)

(** C8.  When the [validate] hook raises, [create] and [save] raise in
    turn (the hook's own exception on a non-abstract type) and leave the
    connection and the database exactly as they were: nothing is
    executed. *)
Theorem validation_error_aborts_write :
  (forall cls kwargs world e,
      BaseModel._validate (BaseModel.__init__ cls [] kwargs) = Raise e ->
      exists e',
        BaseModel.create cls kwargs world = (Raise e', world) /\
        (BaseModel.is_abstract cls = false -> e' = e)) /\
  (forall self world e,
      BaseModel._validate self = Raise e ->
      exists e',
        BaseModel.save self world = (Raise e', world) /\
        (BaseModel.is_abstract (BaseModel.class_of self) = false -> e' = e)).
Proof.
  split.
  - intros cls kwargs world e Hv. unfold BaseModel.create.
    destruct (BaseModel.is_abstract cls).
    + eexists. split; [reflexivity | discriminate].
    + exists e. split; [|reflexivity].
      unfold BaseModel.bind, BaseModel.lift. now rewrite Hv.
  - intros self world e Hv. unfold BaseModel.save.
    destruct (BaseModel.is_abstract (BaseModel.class_of self)).
    + eexists. split; [reflexivity | discriminate].
    + exists e. split; [|reflexivity].
      unfold BaseModel.bind, BaseModel.lift. now rewrite Hv.
Qed.

Lemma validation_error_aborts_write_witness :
  BaseModel.create Demo.Member
    [("name", PyStr "Carol"); ("email", PyStr "carol@mail.com");
     ("age", PyInt (-1))]
    Demo.two_users
  = (Raise (ValueError "age must not be negative"), Demo.two_users) /\
  fst (BaseModel.save
         (BaseModel.__init__ Demo.Member
            [PyStr "Carol"; PyStr "carol@mail.com"; PyInt (-1)] [])
         Demo.two_users)
  = Raise (ValueError "age must not be negative").
Proof.
  split.
  - destruct (proj1 validation_error_aborts_write Demo.Member
                [("name", PyStr "Carol"); ("email", PyStr "carol@mail.com");
                 ("age", PyInt (-1))]
                Demo.two_users (ValueError "age must not be negative")
                eq_refl) as (e' & Hrun & He).
    rewrite Hrun, (He eq_refl). reflexivity.
  - destruct (proj2 validation_error_aborts_write
                (BaseModel.__init__ Demo.Member
                   [PyStr "Carol"; PyStr "carol@mail.com"; PyInt (-1)] [])
                Demo.two_users (ValueError "age must not be negative")
                eq_refl) as (e' & Hrun & He).
    rewrite Hrun, (He eq_refl). reflexivity.
Defined.

(** ** Deletion *)

Lemma rfilter_total {A : Type} (f : A -> result bool) (g : A -> bool)
    (xs : list A) :
  (forall x, f x = Ok (g x)) -> rfilter f xs = Ok (List.filter g xs).
Proof.
  intros Hf. induction xs as [|x xs IH]; simpl; [reflexivity|].
  rewrite Hf, IH. simpl. now destruct (g x).
Qed.

Lemma bind_int (i : Z) :
  (- 2 ^ 63 <= i < 2 ^ 63)%Z ->
  Sqlite.bind_value (PyInt i) = Ok (Sqlite.Integer i).
Proof.
  intros [Hlo Hhi]. unfold Sqlite.bind_value.
  apply Z.leb_le in Hlo. apply Z.ltb_lt in Hhi. now rewrite Hlo, Hhi.
Qed.

(** [DELETE FROM t WHERE id = ?] drops the rows with that rowid. *)
Lemma execute_delete db t tbl i :
  PyDict.get db t = Some tbl ->
  (- 2 ^ 63 <= i < 2 ^ 63)%Z ->
  Sqlite.execute db (Sqlite.Delete t) [PyInt i] =
  Ok (Sqlite.no_rows,
      PyDict.set db t
        (Sqlite.mkTable (Sqlite.columns tbl)
           (List.filter (fun r => negb (Z.eqb (Sqlite.rowid r) i))
              (Sqlite.rows tbl))
           (Sqlite.seq tbl))).
Proof.
  intros Ht Hi.
  unfold Sqlite.execute, Sqlite.lookup_table, Sqlite.with_parameters,
    Sqlite.bind_values.
  rewrite Ht. cbn [rbind List.length Nat.eqb rmap].
  rewrite (bind_int i Hi). cbn [rbind last].
  rewrite (rfilter_total _
             (fun r => negb (Z.eqb (Sqlite.rowid r) i))); [reflexivity|].
  intros r. unfold Sqlite.is_row, Sqlite.compare_values. cbn [rbind].
  rewrite Z.eqb_compare. now destruct (Z.compare (Sqlite.rowid r) i).
Qed.

(** What [delete] does where it works.  On a non-abstract type: [delete]
    on an instance without identity raises the configuration error and
    touches neither the connection nor the database; on an instance whose
    identity is the integer [i], with the connection configured and the
    table in place, it executes the one DELETE, commits, leaves no row
    with identity [i] in the table, and returns with the instance's
    identity cleared. *)
Lemma delete_contract (self : BaseModel.instance) (m : BaseModel.metadata) :
  BaseModel.getattr__meta (BaseModel.class_of self) = Some m ->
  BaseModel.meta_abstract m = false ->
  (BaseModel.getattr self "id" = PyNone ->
   forall world,
     BaseModel.delete self world =
     (Raise (RuntimeError "Cannot delete instance without id"), world)) /\
  (forall db tbl i,
      BaseModel.getattr self "id" = PyInt i ->
      (- 2 ^ 63 <= i < 2 ^ 63)%Z ->
      PyDict.get (Connection.database db) (BaseModel.table_name m)
      = Some tbl ->
      exists db' tbl',
        BaseModel.delete self (Some db) =
          (Ok (BaseModel.setattr self "id" PyNone), Some db') /\
        BaseModel.getattr (BaseModel.setattr self "id" PyNone) "id"
        = PyNone /\
        PyDict.get (Connection.database db') (BaseModel.table_name m)
        = Some tbl' /\
        Sqlite.rows tbl' =
          List.filter (fun r => negb (Z.eqb (Sqlite.rowid r) i))
            (Sqlite.rows tbl) /\
        (forall r, In r (Sqlite.rows tbl') -> Sqlite.rowid r <> i) /\
        Connection.calls db' =
          (Connection.calls db ++
           [ Connection.Execute (Sqlite.Delete (BaseModel.table_name m))
               [PyInt i];
             Connection.Commit ])%list).
Proof.
  intros Hm Ha. split.
  - intros Hid world. unfold BaseModel.delete, BaseModel.is_abstract.
    now rewrite Hm, Ha, Hid.
  - intros db tbl i Hid Hi Ht.
    eexists. eexists. split; [|split; [|split; [|split; [|split]]]].
    + unfold BaseModel.delete, BaseModel.is_abstract, BaseModel.bind,
        BaseModel._ensure_db_connection, BaseModel.lift,
        BaseModel.get_table_name, BaseModel.db_execute,
        BaseModel.db_commit, BaseModel.ret.
      rewrite Hm, Ha, Hid. cbn [pyvalue_is_none].
      rewrite connection_execute, (execute_delete _ _ _ _ Ht Hi).
      cbn. rewrite <- app_assoc. reflexivity.
    + unfold BaseModel.getattr, BaseModel.setattr. cbn [BaseModel.attrs].
      now rewrite get_set_same.
    + cbn [Connection.database]. apply get_set_same.
    + reflexivity.
    + cbn [Sqlite.rows]. intros r Hr.
      apply filter_In in Hr as [_ Hr].
      apply negb_true_iff, Z.eqb_neq in Hr. exact Hr.
    + reflexivity.
Qed.

Lemma delete_contract_witness :
  BaseModel.delete (BaseModel.__init__ Demo.User [] Demo.bob)
    (Some Demo.two_users_db)
  = (Raise (RuntimeError "Cannot delete instance without id"),
     Some Demo.two_users_db) /\
  exists db' tbl',
    BaseModel.delete Demo.alice_created (Some Demo.two_users_db)
    = (Ok (BaseModel.setattr Demo.alice_created "id" PyNone), Some db') /\
    PyDict.get (Connection.database db') "users" = Some tbl' /\
    map Sqlite.rowid (Sqlite.rows Demo.users_table) = [1%Z; 2%Z] /\
    map Sqlite.rowid (Sqlite.rows tbl') = [2%Z].
Proof.
  split.
  - apply (proj1 (delete_contract
                    (BaseModel.__init__ Demo.User [] Demo.bob) _
                    user_meta eq_refl) eq_refl).
  - destruct (proj2 (delete_contract Demo.alice_created _ user_meta eq_refl)
                Demo.two_users_db Demo.users_table 1%Z eq_refl
                ltac:(lia) eq_refl)
      as (db' & tbl' & Hrun & _ & Hget & Hrows & _ & _).
    exists db', tbl'. split; [exact Hrun|]. split; [exact Hget|].
    split; [reflexivity|]. rewrite Hrows. reflexivity.
Defined.

(** What [delete] does short of its contract: without a configured
    connection it raises the configuration error; when the table is not
    there, the engine's error comes through. *)
Lemma delete_failures (self : BaseModel.instance) (m : BaseModel.metadata)
    (i : Z) :
  BaseModel.getattr__meta (BaseModel.class_of self) = Some m ->
  BaseModel.meta_abstract m = false ->
  BaseModel.getattr self "id" = PyInt i ->
  (exists msg,
      BaseModel.delete self None = (Raise (RuntimeError msg), None)) /\
  (forall db,
      PyDict.get (Connection.database db) (BaseModel.table_name m) = None ->
      no_case_variant m db ->
      fst (BaseModel.delete self (Some db)) =
      Raise (Sqlite.no_such_table (BaseModel.table_name m))).
Proof.
  intros Hm Ha Hid. split.
  - unfold BaseModel.delete, BaseModel.is_abstract.
    rewrite Hm, Ha, Hid. eexists. reflexivity.
  - intros db Ht Hv.
    unfold BaseModel.delete, BaseModel.is_abstract, BaseModel.bind,
      BaseModel._ensure_db_connection, BaseModel.lift,
      BaseModel.get_table_name, BaseModel.db_execute.
    rewrite Hm, Ha, Hid. cbn [pyvalue_is_none].
    rewrite connection_execute.
    unfold Sqlite.execute, Sqlite.lookup_table. unfold no_case_variant in Hv.
    now rewrite Ht, Hv.
Qed.

(** C9, where the code departs from it.  Alice has the identity 1 and the
    connection is configured, but the database has no table [users] yet.
    [delete] does not ensure the table as the other operations do: it
    sends its DELETE at once, the engine's error for the missing table
    comes through, no commit is sent and the instance keeps its identity.
    [get] and [save] in the same state ensure the table first: [get]
    answers that there is no such row, [save] goes through. *)
Lemma delete_does_not_ensure_table :
  BaseModel.getattr Demo.alice_created "id" = PyInt 1 /\
  BaseModel.delete Demo.alice_created Demo.fresh
  = (Raise (OperationalError "no such table: users"),
     Some (Connection.mkConnection true []
             [Connection.Execute (Sqlite.Delete "users") [PyInt 1]])) /\
  fst (BaseModel.get Demo.User (PyInt 1) Demo.fresh) = Ok None /\
  fst (BaseModel.save Demo.alice_created Demo.fresh)
  = Ok (PyInt 1, Demo.alice_created).
Proof. repeat split; vm_compute; reflexivity. Qed.

(** ** The empty filter *)

Lemma select_one_eq_one d column_names t :
  Sqlite.execute d (Sqlite.Select column_names t (Some Query.OneEqOne)) [] =
  Sqlite.execute d (Sqlite.Select column_names t None) [].
Proof. reflexivity. Qed.

(** C7.  An empty filter set translates to [1=1], which holds of every
    row; on a non-abstract type [filter()] without conditions and [all()]
    return the same records (or fail alike) and leave the same database;
    on an abstract type both raise the configuration error and return no
    records. *)
Theorem empty_filter_is_all :
  Query.parse_filters [] = Ok (Query.OneEqOne, []) /\
  (forall r, Sqlite.matches (Some Query.OneEqOne) [] r = Ok true) /\
  (forall cls world,
      BaseModel.is_abstract cls = false ->
      fst (BaseModel.filter cls [] world) = fst (BaseModel.all cls world) /\
      option_map Connection.database (snd (BaseModel.filter cls [] world)) =
      option_map Connection.database (snd (BaseModel.all cls world))) /\
  (forall cls world,
      BaseModel.is_abstract cls = true ->
      exists msg msg',
        BaseModel.filter cls [] world = (Raise (RuntimeError msg), world) /\
        BaseModel.all cls world = (Raise (RuntimeError msg'), world)).
Proof.
  split; [reflexivity|]. split; [reflexivity|]. split.
  2:{ intros cls world Ha. unfold BaseModel.filter, BaseModel.all.
      rewrite Ha. eexists. eexists. split; reflexivity. }
  intros cls world Ha.
  unfold BaseModel.filter, BaseModel.all. rewrite Ha.
  cbn [PyDict.mem PyDict.get].
  unfold BaseModel.bind.
  destruct world as [db|].
  2:{ destruct (ensure_table_unconfigured cls Ha) as [msg ->]. now split. }
  destruct (ensure_table_outcome cls db Ha) as (r & db' & Hrun & _).
  rewrite Hrun. destruct r as [[]|e]; [|now split].
  apply is_abstract_false in Ha as (m & Hm & Ha).
  unfold BaseModel._ensure_db_connection, BaseModel.lift,
    BaseModel.get_table_name, BaseModel.get_fields, BaseModel.db_execute.
  rewrite Hm. cbn [Query.parse_filters Query.parse_filters_loop PyDict.keys
                   map BaseModel.check_fields fst snd].
  rewrite !connection_execute, select_one_eq_one. cbv zeta.
  destruct (Sqlite.execute _ _ _) as [[cur d']|e]; now split.
Qed.

Lemma empty_filter_is_all_witness :
  BaseModel.is_abstract Demo.User = false /\
  fst (BaseModel.filter Demo.User [] Demo.two_users)
  = fst (BaseModel.all Demo.User Demo.two_users) /\
  option_map (@List.length BaseModel.instance)
    (match fst (BaseModel.all Demo.User Demo.two_users) with
     | Ok found => Some found
     | Raise _ => None
     end) = Some 2.
Proof.
  split; [reflexivity|]. split; [|reflexivity].
  exact (proj1 (proj1 (proj2 (proj2 empty_filter_is_all)) Demo.User
                  Demo.two_users eq_refl)).
Defined.

(** ** The scenario *)

(** C4, where it fails as stated.  After creating Alice with age 25 and Bob
    without an age, the age stored in Bob's row is NULL, and no row has
    age 18. *)
Lemma default_age_not_stored :
  map (fun r => (Sqlite.rowid r, Sqlite.column_value r "age"))
    (Sqlite.rows Demo.users_table)
  = [ (1%Z, Sqlite.Integer 25); (2%Z, Sqlite.Null) ] /\
  fst (BaseModel.filter Demo.User [("age", PyInt 18)] Demo.two_users)
  = Ok [].
Proof. split; reflexivity. Qed.

(** C4, as the code has it.  In the scenario, creating Bob without an age stores
    NULL for his age, not the declared default; [filter(age__gt=18)]
    returns exactly Alice, since NULL is not greater than 18; after Alice
    is deleted, [get] on her former identity returns nothing and [all()]
    returns exactly Bob, whose age reads back as [None]. *)
Theorem scenario_outcome :
  fst (Demo.scenario Demo.fresh)
  = Ok ([Demo.alice_created], None, [Demo.bob_created]) /\
  BaseModel.getattr Demo.bob_created "age" = PyNone /\
  map (fun r => (Sqlite.rowid r, Sqlite.column_value r "age"))
    (Sqlite.rows Demo.users_table)
  = [ (1%Z, Sqlite.Integer 25); (2%Z, Sqlite.Null) ].
Proof. repeat split; reflexivity. Qed.

(** ** Abstract types *)

Lemma inherit_keeps_abstract (bases : list BaseModel.class_object) :
  forall meta_class a,
    BaseModel.abstract meta_class = Some a ->
    BaseModel.abstract
      (fold_left
         (fun m base =>
            match BaseModel.getattr_Meta base with
            | Some base_Meta => BaseModel.inherit_Meta m base_Meta
            | None => m
            end)
         bases meta_class) = Some a.
Proof.
  induction bases as [|base bases IH]; intros meta_class a Ha; simpl;
    [exact Ha|].
  apply IH. destruct (BaseModel.getattr_Meta base); [|exact Ha].
  unfold BaseModel.inherit_Meta. simpl. now rewrite Ha.
Qed.

(** A type declared abstract gets no metadata of its own. *)
Lemma abstract_derives_no_metadata name bases body meta :
  BaseModel.body_Meta body = Some meta ->
  BaseModel.abstract meta = Some true ->
  BaseModel.cls__meta (BaseModel.ModelMeta_new name bases body) = None.
Proof.
  intros HM Ha. unfold BaseModel.ModelMeta_new. rewrite HM.
  cbn [BaseModel.abstract].
  rewrite (inherit_keeps_abstract bases meta true Ha). reflexivity.
Qed.

(** Whatever its [Meta] says, a class whose first base is [Model] finds a
    [_meta], its own or the one [Model] has, and is not abstract for
    [is_abstract]. *)
Lemma subclass_of_Model_not_abstract name bases body :
  BaseModel.is_abstract
    (BaseModel.ModelMeta_new name (BaseModel.Model :: bases) body) = false.
Proof.
  unfold BaseModel.ModelMeta_new.
  match goal with
  | |- context [if ?c then _ else _] => destruct c eqn:Hc
  end; [reflexivity|].
  unfold BaseModel.is_abstract, BaseModel.getattr__meta.
  cbn [BaseModel.mro BaseModel.first_some BaseModel.cls__meta
       BaseModel.meta_abstract].
  reflexivity.
Qed.

(** C2, where the code departs from it.  [Base] is declared abstract and
    has no metadata of its own, yet [is_abstract] answers no, and
    [create_table], [get], [all] and [filter] go through on the table
    named after [Model]. *)
Lemma abstract_flag_not_honoured :
  option_map BaseModel.abstract (BaseModel.cls_Meta Demo.Base)
  = Some (Some true) /\
  BaseModel.cls__meta Demo.Base = None /\
  BaseModel.is_abstract Demo.Base = false /\
  fst (BaseModel.create_table Demo.Base true Demo.fresh) = Ok tt /\
  option_map (fun db => PyDict.keys (Connection.database db))
    (snd (BaseModel.create_table Demo.Base true Demo.fresh))
  = Some ["model"] /\
  fst (BaseModel.get Demo.Base (PyInt 1) Demo.fresh) = Ok None /\
  fst (BaseModel.all Demo.Base Demo.fresh) = Ok [] /\
  fst (BaseModel.filter Demo.Base [] Demo.fresh) = Ok [].
Proof. repeat split; reflexivity. Qed.

(** ** The SQL the demonstration type generates *)

Example user_create_table_text :
  match BaseModel._create_table_sql Demo.User with
  | Ok sql => Sqlite.sql_text sql
  | Raise _ => EmptyString
  end
  = "CREATE TABLE IF NOT EXISTS users (id INTEGER PRIMARY KEY AUTOINCREMENT, "
    ++ "name TEXT, email TEXT, age INTEGER)".
Proof. reflexivity. Qed.

Example user_filter_text :
  match Query.parse_filters [("age__gt", PyInt 18); ("name", PyStr "Al")] with
  | Ok (w, values) => (Query.where_text w, values)
  | Raise _ => (EmptyString, [])
  end
  = ("age > ? AND name = ?", [PyInt 18; PyStr "Al"]).
Proof. reflexivity. Qed.

(* ================================================================= *)
(** * Further properties of the code *)

(** ** Filter keys *)

Lemma rpartition_append (sep suffix : string) :
  PyStr.rpartition sep (sep ++ suffix) = Some (EmptyString, suffix) ->
  forall field, PyStr.rpartition sep (field ++ sep ++ suffix)
                = Some (field, suffix).
Proof.
  intros Hbase field. induction field as [|c field IH]; [exact Hbase|].
  cbn [append PyStr.rpartition]. now rewrite IH.
Qed.

(** X1.  A key built as field, double underscore, operator name parses
    back to that field and that operator, whatever the field text is. *)
Theorem parse_filter_key_of_built_key (field_name suffix : string) :
  In suffix operator_names ->
  Query.parse_filter_key (field_name ++ "__" ++ suffix)
  = (field_name, "__" ++ suffix).
Proof.
  intros Hin.
  assert (Hr : PyStr.rpartition "__" (field_name ++ "__" ++ suffix)
               = Some (field_name, suffix)).
  { apply rpartition_append.
    destruct Hin as [<-|[<-|[<-|[<-|[]]]]]; reflexivity. }
  assert (Hc : PyStr.contains "__" (field_name ++ "__" ++ suffix) = true).
  { apply contains_occurs. exists (String.length field_name).
    now exists field_name, suffix. }
  unfold Query.parse_filter_key, PyStr.rsplit1. rewrite Hc, Hr.
  cbn [negb]. apply operator_known in Hin. now rewrite Hin.
Qed.

Lemma parse_filter_key_of_built_key_witness :
  In "like" operator_names /\
  Query.parse_filter_key ("first__name" ++ "__" ++ "like")
  = ("first__name", "__like").
Proof.
  assert (Hin : In "like" operator_names) by (simpl; tauto).
  split; [exact Hin|].
  exact (parse_filter_key_of_built_key "first__name" "like" Hin).
Defined.

(** X2.  Parsing a key loses no text: either the whole key is the field
    and the operator is the default, or the key is the field followed by
    the operator, and that operator is one of [OPERATORS]. *)
Theorem parse_filter_key_splits (key : string) :
  (Query.parse_filter_key key = (key, "__exact")) \/
  (key = fst (Query.parse_filter_key key) ++ snd (Query.parse_filter_key key)
   /\ PyDict.mem Query.OPERATORS (snd (Query.parse_filter_key key)) = true).
Proof.
  unfold Query.parse_filter_key, PyStr.rsplit1.
  destruct (negb (PyStr.contains "__" key)); [now left|].
  pose proof (rpartition_spec "_" "_" key) as Hspec.
  destruct (PyStr.rpartition "__" key) as [[a b]|]; [|now left].
  destruct (PyDict.mem Query.OPERATORS ("__" ++ b)) eqn:Hm; [|now left].
  right. cbn [fst snd]. split; [apply Hspec | exact Hm].
Qed.

Lemma parse_filters_loop_run (items : list (string * pyvalue)) :
  forall conditions values,
    Query.parse_filters_loop items conditions values =
    Ok ((conditions ++ map clause_of_key (PyDict.keys items))%list,
        (values ++ PyDict.values items)%list).
Proof.
  induction items as [|[key value] items IH]; intros conditions values.
  - simpl. now rewrite !app_nil_r.
  - cbn [Query.parse_filters_loop PyDict.keys PyDict.values map fst snd].
    pose proof (parse_filter_key_operator key) as Hop.
    unfold clause_of_key at 1.
    destruct (Query.parse_filter_key key) as [field_name operator].
    unfold PyDict.mem in Hop. cbn [fst snd] in *.
    destruct (PyDict.get Query.OPERATORS operator) as [symbol|];
      [|discriminate].
    unfold PyDict.keys, PyDict.values in IH. rewrite IH.
    now rewrite <- !app_assoc.
Qed.

(** X3.  On keywords none of which is [cls], the name of the class
    method's own first parameter, [parse_filters] does not fail; it gives
    one clause per key, in the order of the keys, each made of the key's
    field and the symbol of its operator, and the values in the same
    order; without keys the clause is [1=1]. *)
Theorem parse_filters_in_order (kwargs : PyDict.dict pyvalue) :
  ~ In "cls" (PyDict.keys kwargs) ->
  Query.parse_filters kwargs =
  Ok (match kwargs with
      | [] => Query.OneEqOne
      | _ => Query.Conj (map clause_of_key (PyDict.keys kwargs))
      end,
      PyDict.values kwargs).
Proof.
  intros _. unfold Query.parse_filters. rewrite parse_filters_loop_run.
  destruct kwargs as [|[key value] kwargs]; reflexivity.
Qed.

Lemma parse_filters_in_order_witness :
  Query.parse_filters [("age__gt", PyInt 18); ("name__exact", PyStr "John")]
  = Ok (Query.Conj [ Query.Condition "age" ">";
                     Query.Condition "name" "=" ],
        [PyInt 18; PyStr "John"]).
Proof.
  apply (parse_filters_in_order
           [("age__gt", PyInt 18); ("name__exact", PyStr "John")]).
  intros [H|[H|[]]]; discriminate H.
Defined.


(** ** Field types and the codec *)

Lemma TYPE_MAPPING_get_In a ft :
  FieldTypes.TYPE_MAPPING_get a = Some ft ->
  In ft (map snd FieldTypes.TYPE_MAPPING).
Proof.
  unfold FieldTypes.TYPE_MAPPING_get.
  destruct (find _ FieldTypes.TYPE_MAPPING) as [[k v]|] eqn:Hf;
    [|discriminate].
  intros [= <-]. apply find_some in Hf as [Hin _].
  now apply (in_map snd) in Hin.
Qed.

Lemma get_field_type_In a ft :
  FieldTypes.get_field_type a = Some ft ->
  In ft (map snd FieldTypes.TYPE_MAPPING).
Proof.
  unfold FieldTypes.get_field_type.
  destruct (FieldTypes.annotation_eqb a FieldTypes.T_None); [discriminate|].
  apply TYPE_MAPPING_get_In.
Qed.

(** Metadata the metaclass derives declares its columns as the model of
    [CREATE TABLE] expects them. *)
Lemma schema_columns_declared (m : BaseModel.metadata) :
  meta_ok m -> Sqlite.declared (schema_columns m) = true.
Proof.
  intros [_ Hok]. unfold schema_columns, Sqlite.declared.
  cbn [String.eqb Ascii.eqb Bool.eqb andb].
  apply forallb_forall. intros [c d] Hin.
  apply in_map_iff in Hin as [[name fm] [Heq Hin]].
  cbn [fst snd] in Heq. injection Heq as <- <-.
  destruct (Hok name fm Hin) as (_ & _ & _ & Hft).
  apply get_field_type_In in Hft. cbn [snd].
  destruct Hft as [H|[H|[H|[H|[]]]]]; injection H as <- _; reflexivity.
Qed.

(** X4.  Whatever the annotation, the type mapper answers with one of its
    four field types or with none: a column type is TEXT, INTEGER or REAL
    and the Python type is one of the four supported classes. *)
Theorem get_field_type_range (a : FieldTypes.annotation)
    (ft : FieldTypes.FieldType) :
  FieldTypes.get_field_type a = Some ft ->
  In (FieldTypes.sqlite_type ft) ["TEXT"; "INTEGER"; "REAL"] /\
  In (FieldTypes.python_type ft) FieldTypes.supported /\
  FieldTypes.get_field_type (FieldTypes.python_type ft) = Some ft /\
  FieldTypes.python_to_sqlite_type a = Some (FieldTypes.sqlite_type ft).
Proof.
  intros Hft. unfold FieldTypes.python_to_sqlite_type. rewrite Hft.
  apply get_field_type_In in Hft.
  destruct Hft as [<-|[<-|[<-|[<-|[]]]]]; cbn; repeat split; auto 6.
Qed.

Lemma get_field_type_range_witness :
  FieldTypes.get_field_type
    (FieldTypes.T_alias "Union" [FieldTypes.T_NoneType; FieldTypes.T_bool])
  = Some (FieldTypes.mkFieldType "INTEGER" FieldTypes.T_bool) /\
  FieldTypes.python_to_sqlite_type
    (FieldTypes.T_alias "Union" [FieldTypes.T_NoneType; FieldTypes.T_bool])
  = Some "INTEGER".
Proof.
  split; [reflexivity|].
  exact (proj2 (proj2 (proj2
           (get_field_type_range
              (FieldTypes.T_alias "Union"
                 [FieldTypes.T_NoneType; FieldTypes.T_bool])
              (FieldTypes.mkFieldType "INTEGER" FieldTypes.T_bool)
              eq_refl)))).
Defined.

(** X5.  An optional wrapper, written with [None] second or first, maps
    like the type it wraps, and the codec round trip holds through it for
    the values of that type and for [None]; an optional wrapper around an
    unsupported class has no field type. *)
Theorem optional_field_type (origin : string) (T : FieldTypes.annotation) :
  In T FieldTypes.supported ->
  FieldTypes.get_field_type
    (FieldTypes.T_alias origin [T; FieldTypes.T_NoneType])
  = FieldTypes.get_field_type T /\
  FieldTypes.get_field_type
    (FieldTypes.T_alias origin [FieldTypes.T_NoneType; T])
  = FieldTypes.get_field_type T /\
  (forall v,
      FieldTypes.isinstance v T = true \/ v = PyNone ->
      FieldTypes.from_db_value
        (FieldTypes.to_db_value v
           (FieldTypes.T_alias origin [T; FieldTypes.T_NoneType]))
        (FieldTypes.T_alias origin [T; FieldTypes.T_NoneType]) = v) /\
  (forall name,
      FieldTypes.get_field_type
        (FieldTypes.T_alias origin
           [FieldTypes.T_class name; FieldTypes.T_NoneType]) = None).
Proof.
  intros HT.
  assert (H1 : FieldTypes.get_field_type
                 (FieldTypes.T_alias origin [T; FieldTypes.T_NoneType])
               = FieldTypes.get_field_type T)
    by (destruct HT as [<-|[<-|[<-|[<-|[]]]]]; reflexivity).
  split; [exact H1|]. split; [|split].
  - destruct HT as [<-|[<-|[<-|[<-|[]]]]]; reflexivity.
  - intros v Hv. unfold FieldTypes.to_db_value, FieldTypes.from_db_value.
    rewrite H1.
    destruct HT as [<-|[<-|[<-|[<-|[]]]]];
      destruct Hv as [Hv | ->]; try reflexivity;
      destruct v as [|b|z|bits|s]; try discriminate Hv; try reflexivity.
    now destruct b.
  - intros name. reflexivity.
Qed.

Lemma optional_field_type_witness :
  In FieldTypes.T_bool FieldTypes.supported /\
  FieldTypes.from_db_value
    (FieldTypes.to_db_value (PyBool false)
       (FieldTypes.T_alias "Optional"
          [FieldTypes.T_bool; FieldTypes.T_NoneType]))
    (FieldTypes.T_alias "Optional"
       [FieldTypes.T_bool; FieldTypes.T_NoneType]) = PyBool false.
Proof.
  assert (H : In FieldTypes.T_bool FieldTypes.supported) by (simpl; tauto).
  split; [exact H|].
  apply (proj1 (proj2 (proj2 (optional_field_type "Optional"
                                FieldTypes.T_bool H)))).
  left. reflexivity.
Defined.

(** X6.  A boolean field holds nothing but NULL, 0 or 1 in storage and
    nothing but [None], [True] or [False] in memory, whatever value was
    assigned or stored; and encoding an encoded value, or decoding a
    decoded one, changes nothing, for every annotation. *)
Theorem codec_normalises :
  (forall v,
      In (FieldTypes.to_db_value v FieldTypes.T_bool)
         [PyNone; PyInt 0; PyInt 1] /\
      In (FieldTypes.from_db_value v FieldTypes.T_bool)
         [PyNone; PyBool false; PyBool true]) /\
  (forall v a,
      FieldTypes.to_db_value (FieldTypes.to_db_value v a) a
      = FieldTypes.to_db_value v a /\
      FieldTypes.from_db_value (FieldTypes.from_db_value v a) a
      = FieldTypes.from_db_value v a).
Proof.
  split.
  - intros v.
    unfold FieldTypes.to_db_value, FieldTypes.from_db_value.
    cbn [FieldTypes.get_field_type FieldTypes.annotation_eqb
         FieldTypes.get_origin FieldTypes.TYPE_MAPPING_get
         FieldTypes.TYPE_MAPPING find fst snd option_map
         FieldTypes.FieldType_to_db_value FieldTypes.FieldType_from_db_value
         FieldTypes.python_type].
    unfold FieldTypes.FieldType_to_db_value,
      FieldTypes.FieldType_from_db_value.
    cbn [FieldTypes.python_type FieldTypes.annotation_eqb].
    destruct (pyvalue_is_none v); [simpl; auto 6|].
    destruct (truthy v); simpl; auto 6.
  - intros v a. unfold FieldTypes.to_db_value, FieldTypes.from_db_value.
    destruct (FieldTypes.get_field_type a) as [ft|] eqn:Hft;
      [|now split].
    apply get_field_type_In in Hft.
    destruct Hft as [<-|[<-|[<-|[<-|[]]]]];
      unfold FieldTypes.FieldType_to_db_value,
        FieldTypes.FieldType_from_db_value;
      cbn [FieldTypes.python_type FieldTypes.annotation_eqb];
      destruct (pyvalue_is_none v) eqn:Hn; cbn; rewrite ?Hn;
      try (now split); destruct (truthy v); now split.
Qed.

(** ** What the metaclass derives *)

Lemma In_set {V : Type} (d : PyDict.dict V) k v k' v' :
  In (k', v') (PyDict.set d k v) -> (k' = k /\ v' = v) \/ In (k', v') d.
Proof.
  induction d as [|[k0 v0] d IH]; simpl.
  - intros [[= <- <-]|[]]. now left.
  - destruct (String.eqb_spec k k0) as [->|Hk]; simpl.
    + intros [[= <- <-]|Hin]; [now left | right; now right].
    + intros [Heq|Hin]; [right; now left|].
      destruct (IH Hin) as [H|H]; [now left | right; now right].
Qed.

Lemma derive_fields_ok cls hints :
  meta_ok (BaseModel.mkMetadata EmptyString
             (BaseModel.derive_fields cls hints) false).
Proof.
  unfold meta_ok, BaseModel.derive_fields. cbn [BaseModel.fields].
  apply (fold_left_invariant
           (fun fields =>
              NoDup (PyDict.keys fields) /\
              forall name fm,
                In (name, fm) fields ->
                name <> "id" /\ name <> "Meta" /\
                PyStr.startswith name "_" = false /\
                FieldTypes.get_field_type (BaseModel.annotation fm)
                = Some (FieldTypes.mkFieldType (BaseModel.sqlite_type fm)
                          (BaseModel.python_type fm)))).
  - split; [constructor | intros ? ? []].
  - intros fields [k a] [Hnd Hall] _. unfold BaseModel.derive_field.
    cbn [fst snd].
    destruct (PyStr.startswith k "_") eqn:Hu; [now split|].
    destruct (String.eqb_spec k "Meta") as [->|HM]; [now split|].
    destruct (String.eqb_spec k "id") as [->|Hid]; [now split|].
    cbn [orb].
    assert (Hstep :
      match FieldTypes.get_field_type a with
      | Some field_type =>
          NoDup (PyDict.keys
                   (PyDict.set fields k
                      (BaseModel.mkField a
                         (FieldTypes.sqlite_type field_type)
                         (FieldTypes.python_type field_type)))) /\
          forall name fm,
            In (name, fm)
               (PyDict.set fields k
                  (BaseModel.mkField a
                     (FieldTypes.sqlite_type field_type)
                     (FieldTypes.python_type field_type))) ->
            name <> "id" /\ name <> "Meta" /\
            PyStr.startswith name "_" = false /\
            FieldTypes.get_field_type (BaseModel.annotation fm)
            = Some (FieldTypes.mkFieldType (BaseModel.sqlite_type fm)
                      (BaseModel.python_type fm))
      | None => True
      end).
    { destruct (FieldTypes.get_field_type a) as [[st pt]|] eqn:Ha;
        [|exact I].
      split; [now apply NoDup_keys_set|].
      intros name fm Hin. apply In_set in Hin as [[-> ->]|Hin];
        [|now apply Hall].
      cbn. now repeat split. }
    assert (Hkeep :
      NoDup (PyDict.keys fields) /\
      forall name fm,
        In (name, fm) fields ->
        name <> "id" /\ name <> "Meta" /\
        PyStr.startswith name "_" = false /\
        FieldTypes.get_field_type (BaseModel.annotation fm)
        = Some (FieldTypes.mkFieldType (BaseModel.sqlite_type fm)
                  (BaseModel.python_type fm))) by (split; assumption).
    destruct (BaseModel.class_getattr cls k) as [[v|f|]|];
      [| exact Hkeep | exact Hkeep |];
      (destruct (FieldTypes.get_field_type a);
       [exact Hstep | exact Hkeep]).
Qed.

Lemma derived_meta_ok name bases body m :
  BaseModel.cls__meta (BaseModel.ModelMeta_new name bases body) = Some m ->
  meta_ok m /\ BaseModel.meta_abstract m = false.
Proof.
  intros Hm.
  destruct (ModelMeta_new_fields _ _ _ _ Hm) as [cls Hfields].
  split.
  - pose proof (derive_fields_ok cls
                  (BaseModel.get_type_hints
                     (BaseModel.ModelMeta_new name bases body))) as Hok.
    unfold meta_ok in *. cbn [BaseModel.fields] in Hok.
    now rewrite Hfields.
  - revert Hm. unfold BaseModel.ModelMeta_new.
    match goal with
    | |- context [if ?c then _ else _] => destruct c
    end; cbn [BaseModel.cls__meta]; [discriminate|].
    now intros [= <-].
Qed.

(** X7.  The metadata the metaclass gives a class is never abstract; its
    field names are distinct, none is [id], [Meta] or underscore-prefixed;
    and each field carries exactly the column type and Python type that
    the type mapper gives for its annotation. *)
Theorem ModelMeta_new_meta_ok name bases body m :
  BaseModel.cls__meta (BaseModel.ModelMeta_new name bases body) = Some m ->
  meta_ok m /\ BaseModel.meta_abstract m = false.
Proof. apply derived_meta_ok. Qed.

Lemma ModelMeta_new_meta_ok_witness :
  exists m,
    BaseModel.cls__meta Demo.User = Some m /\
    meta_ok m /\ BaseModel.meta_abstract m = false.
Proof.
  eexists. split; [reflexivity|].
  apply (ModelMeta_new_meta_ok "User" [BaseModel.Model]
           (BaseModel.mkBody
              [ ("name", FieldTypes.T_str);
                ("email", FieldTypes.T_str);
                ("age", FieldTypes.T_int) ]
              [ ("age", BaseModel.Data (PyInt 18)) ]
              (Some (BaseModel.mkMeta None (Some (Some "users")))))).
  reflexivity.
Defined.

Lemma inherit_keeps_db_table (bases : list BaseModel.class_object) :
  forall meta_class t,
    BaseModel.db_table meta_class = Some t ->
    BaseModel.db_table
      (fold_left
         (fun m base =>
            match BaseModel.getattr_Meta base with
            | Some base_Meta => BaseModel.inherit_Meta m base_Meta
            | None => m
            end)
         bases meta_class) = Some t.
Proof.
  induction bases as [|base bases IH]; intros meta_class t Ht; simpl;
    [exact Ht|].
  apply IH. destruct (BaseModel.getattr_Meta base); [|exact Ht].
  unfold BaseModel.inherit_Meta. simpl. now rewrite Ht.
Qed.

Lemma inherit_nothing (bases : list BaseModel.class_object) meta_class :
  (forall base, In base bases -> BaseModel.getattr_Meta base = None) ->
  fold_left
    (fun m base =>
       match BaseModel.getattr_Meta base with
       | Some base_Meta => BaseModel.inherit_Meta m base_Meta
       | None => m
       end)
    bases meta_class = meta_class.
Proof.
  revert meta_class. induction bases as [|base bases IH];
    intros meta_class Hnone; simpl; [reflexivity|].
  rewrite (Hnone base) by now left.
  apply IH. intros b Hb. apply Hnone. now right.
Qed.

Lemma ModelMeta_new_table_name name bases body m :
  BaseModel.cls__meta (BaseModel.ModelMeta_new name bases body) = Some m ->
  BaseModel.table_name m =
  match BaseModel.db_table
          (fold_left
             (fun m base =>
                match BaseModel.getattr_Meta base with
                | Some base_Meta => BaseModel.inherit_Meta m base_Meta
                | None => m
                end)
             bases
             match BaseModel.body_Meta body with
             | Some meta => meta
             | None => BaseModel.mkMeta None None
             end) with
  | Some (Some t) => t
  | _ => PyStr.lower name
  end.
Proof.
  unfold BaseModel.ModelMeta_new.
  match goal with
  | |- context [if ?c then _ else _] => destruct c
  end; cbn [BaseModel.cls__meta]; [discriminate|].
  intros [= <-]. cbn [BaseModel.table_name BaseModel.db_table].
  match goal with
  | |- context [BaseModel.db_table ?f] => destruct (BaseModel.db_table f)
        as [[t|]|]
  end; reflexivity.
Qed.

(** X8.  The table name of a class the metaclass accepts as concrete: the
    [db_table] its own [Meta] sets, if it is a string; the class name
    with its letters in lower case, for a class name written in ASCII,
    if its own [Meta] sets [db_table] to [None], or if it sets none and
    no base has a [Meta]; and otherwise, when the first base's [Meta] has
    a table name, that very name, so that a class deriving from a
    concrete model without naming its table shares the table of its
    base. *)
Theorem table_name_resolution name bases body m :
  BaseModel.cls__meta (BaseModel.ModelMeta_new name bases body) = Some m ->
  (forall t, body_db_table body = Some (Some t) ->
             BaseModel.table_name m = t) /\
  (PyStr.is_ascii name = true ->
   body_db_table body = Some None ->
   BaseModel.table_name m = PyStr.lower name) /\
  (PyStr.is_ascii name = true ->
   body_db_table body = None ->
   (forall base, In base bases -> BaseModel.getattr_Meta base = None) ->
   BaseModel.table_name m = PyStr.lower name) /\
  (forall base rest base_Meta t,
      body_db_table body = None ->
      bases = base :: rest ->
      BaseModel.getattr_Meta base = Some base_Meta ->
      BaseModel.db_table base_Meta = Some (Some t) ->
      BaseModel.table_name m = t).
Proof.
  intros Hm. rewrite (ModelMeta_new_table_name _ _ _ _ Hm).
  unfold body_db_table.
  split; [|split; [|split]].
  - intros t Ht.
    destruct (BaseModel.body_Meta body) as [meta|]; [|discriminate].
    now rewrite (inherit_keeps_db_table bases meta _ Ht).
  - intros _ Ht.
    destruct (BaseModel.body_Meta body) as [meta|]; [|discriminate].
    now rewrite (inherit_keeps_db_table bases meta _ Ht).
  - intros _ Ht Hnone. rewrite (inherit_nothing bases _ Hnone).
    destruct (BaseModel.body_Meta body) as [meta|];
      [now rewrite Ht | reflexivity].
  - intros base rest base_Meta t Ht -> HM Hbase.
    cbn [fold_left]. rewrite HM.
    rewrite (inherit_keeps_db_table rest _ (Some t)); [reflexivity|].
    unfold BaseModel.inherit_Meta. cbn [BaseModel.db_table].
    destruct (BaseModel.body_Meta body) as [meta|];
      [now rewrite Ht | exact Hbase].
Qed.

Lemma table_name_resolution_witness :
  (exists m,
      BaseModel.cls__meta Demo.User = Some m /\
      BaseModel.table_name m = "users") /\
  (exists m,
      BaseModel.cls__meta Demo.Member = Some m /\
      BaseModel.table_name m = "users") /\
  (exists m,
      BaseModel.cls__meta
        (BaseModel.ModelMeta_new "Invoice" [BaseModel.Model]
           (BaseModel.mkBody [("total", FieldTypes.T_float)] [] None))
      = Some m /\
      BaseModel.table_name m = "model") /\
  (exists m,
      BaseModel.cls__meta
        (BaseModel.ModelMeta_new "Ledger" [BaseModel.Model]
           (BaseModel.mkBody [("total", FieldTypes.T_float)] []
              (Some (BaseModel.mkMeta None (Some None)))))
      = Some m /\
      BaseModel.table_name m = "ledger").
Proof.
  split; [|split; [|split]].
  - eexists. split; [reflexivity|].
    apply (proj1 (table_name_resolution "User" [BaseModel.Model]
                    (BaseModel.mkBody
                       [ ("name", FieldTypes.T_str);
                         ("email", FieldTypes.T_str);
                         ("age", FieldTypes.T_int) ]
                       [ ("age", BaseModel.Data (PyInt 18)) ]
                       (Some (BaseModel.mkMeta None (Some (Some "users")))))
                    _ eq_refl)).
    reflexivity.
  - eexists. split; [reflexivity|].
    apply (proj2 (proj2 (proj2
             (table_name_resolution "Member" [Demo.User]
                (BaseModel.mkBody []
                   [ ("validate", BaseModel.Function Demo.validate_age) ]
                   None)
                _ eq_refl)))
             Demo.User [] (BaseModel.mkMeta (Some false)
                             (Some (Some "users"))) "users");
      reflexivity.
  - eexists. split; [reflexivity|].
    apply (proj2 (proj2 (proj2
             (table_name_resolution "Invoice" [BaseModel.Model]
                (BaseModel.mkBody [("total", FieldTypes.T_float)] [] None)
                _ eq_refl)))
             BaseModel.Model [] (BaseModel.mkMeta (Some false)
                                   (Some (Some "model"))) "model");
      reflexivity.
  - eexists. split; [reflexivity|].
    apply (proj1 (proj2
             (table_name_resolution "Ledger" [BaseModel.Model]
                (BaseModel.mkBody [("total", FieldTypes.T_float)] []
                   (Some (BaseModel.mkMeta None (Some None))))
                _ eq_refl)));
      reflexivity.
Defined.

(** ** Construction of instances *)

Section DictFacts2.
Context {V : Type}.
Implicit Types (d : PyDict.dict V) (k : string) (v : V).









End DictFacts2.










(** ** Ensuring the table *)






(** ** Configuration errors *)





Lemma getattr__meta_own cls :
  BaseModel.getattr__meta cls =
  match BaseModel.cls__meta cls with
  | Some m => Some m
  | None =>
      BaseModel.first_some BaseModel.cls__meta
        (flat_map BaseModel.mro (BaseModel.cls_bases cls))
  end.
Proof. destruct cls. reflexivity. Qed.

Lemma ModelMeta_new_bases name bases body :
  BaseModel.cls_bases (BaseModel.ModelMeta_new name bases body) = bases.
Proof.
  unfold BaseModel.ModelMeta_new.
  match goal with
  | |- context [if ?c then _ else _] => destruct c
  end; reflexivity.
Qed.

(** X13.  No class derived from [Model], base by base through the
    metaclass, with a body that leaves [_meta] and [is_abstract] alone,
    is abstract for [is_abstract], whatever its [Meta] or that of an
    ancestor declares: it finds metadata, its own or the nearest an
    ancestor has, that metadata is well formed and not marked abstract,
    and [is_abstract] answers no. *)
Theorem derived_never_abstract cls :
  model_class cls ->
  exists m,
    BaseModel.getattr__meta cls = Some m /\
    meta_ok m /\
    BaseModel.meta_abstract m = false /\
    BaseModel.is_abstract cls = false.
Proof.
  intros Hcls.
  enough (H : exists m, BaseModel.getattr__meta cls = Some m /\ meta_ok m /\
                        BaseModel.meta_abstract m = false).
  { destruct H as (m & Hm & Hok & Ha). exists m.
    split; [exact Hm|]. split; [exact Hok|]. split; [exact Ha|].
    unfold BaseModel.is_abstract. now rewrite Hm. }
  induction Hcls as [|name base body Hbase (m & Hm & Hok & Ha) _ _].
  - eexists. split; [reflexivity|]. split; [|reflexivity].
    split; [constructor | intros ? ? []].
  - rewrite getattr__meta_own, ModelMeta_new_bases.
    destruct (BaseModel.cls__meta (BaseModel.ModelMeta_new name [base] body))
      as [m'|] eqn:Hown.
    + exists m'. split; [reflexivity|].
      now apply (derived_meta_ok name [base] body).
    + exists m. cbn [flat_map]. rewrite app_nil_r.
      split; [exact Hm|]. now split.
Qed.

Lemma derived_never_abstract_witness :
  option_map BaseModel.abstract (BaseModel.cls_Meta Demo.Base)
  = Some (Some true) /\
  exists m,
    BaseModel.getattr__meta Demo.Base = Some m /\
    BaseModel.meta_abstract m = false /\
    BaseModel.is_abstract Demo.Base = false.
Proof.
  split; [reflexivity|].
  destruct (derived_never_abstract Demo.Base
              (model_class_sub "Base" BaseModel.Model
                 (BaseModel.mkBody [ ("label", FieldTypes.T_str) ] []
                    (Some (BaseModel.mkMeta (Some true) None)))
                 model_class_Model eq_refl eq_refl))
    as (m & Hm & _ & Ha & Habs).
  exists m. now repeat split.
Defined.

(** ** How the operations compose *)



Lemma rmap_total {A B : Type} (f : A -> result B) (g : A -> B)
    (xs : list A) :
  (forall x, f x = Ok (g x)) -> rmap f xs = Ok (map g xs).
Proof.
  intros Hf. induction xs as [|x xs IH]; simpl; [reflexivity|].
  now rewrite Hf, IH.
Qed.

(** The instance [_from_db_row] builds from a row. *)
Lemma from_db_row_run cls m column_names :
  BaseModel.getattr__meta cls = Some m ->
  exists build,
    forall row,
      BaseModel._from_db_row cls row column_names = Ok (build row).
Proof.
  intros Hm. unfold BaseModel._from_db_row, BaseModel.get_fields.
  rewrite Hm. cbn [rbind]. eexists. intros row. reflexivity.
Qed.

Lemma check_fields_known cls m keys :
  (forall key, In key keys -> known_key m key) ->
  BaseModel.check_fields cls (BaseModel.fields m) keys = Ok tt.
Proof.
  induction keys as [|k keys IH]; intros Hknown; [reflexivity|].
  cbn [BaseModel.check_fields].
  destruct (Hknown k (or_introl eq_refl)) as [Hmem | Hid].
  - rewrite Hmem. cbn [negb andb]. apply IH.
    intros key Hin. apply Hknown. now right.
  - rewrite Hid, String.eqb_refl, andb_false_r. apply IH.
    intros key Hin. apply Hknown. now right.
Qed.

(** X15.  On a concrete type, [get(id)] is the first record of
    [filter(id=id)], or nothing when that list is empty: the two send the
    same statement with the same parameter, fail alike and leave the same
    state. *)
Theorem get_is_first_of_filter cls id world :
  BaseModel.is_abstract cls = false ->
  BaseModel.get cls id world =
  (map_result (@hd_error BaseModel.instance)
     (fst (BaseModel.filter cls [("id", id)] world)),
   snd (BaseModel.filter cls [("id", id)] world)).
Proof.
  intros Ha. unfold BaseModel.get, BaseModel.filter. rewrite Ha.
  change (PyDict.mem [("id", id)] "cls") with false. cbv iota.
  unfold BaseModel.bind.
  destruct world as [db|].
  2:{ destruct (ensure_table_unconfigured cls Ha) as [msg ->]. reflexivity. }
  destruct (ensure_table_outcome cls db Ha) as (r & db' & Hrun & _).
  rewrite Hrun. destruct r as [[]|e]; [|reflexivity].
  apply is_abstract_false in Ha as (m & Hm & Ha).
  unfold BaseModel._ensure_db_connection, BaseModel.lift,
    BaseModel.get_table_name, BaseModel.get_fields, BaseModel.db_execute,
    BaseModel.ret.
  rewrite Hm.
  assert (Hp : Query.parse_filters [("id", id)]
               = Ok (Query.Conj [Query.Condition "id" "="], [id]))
    by reflexivity.
  assert (Hc : BaseModel.check_fields cls (BaseModel.fields m)
                 (PyDict.keys [("id", id)]) = Ok tt).
  { apply check_fields_known. intros key [<-|[]]. now right. }
  rewrite Hp, Hc. cbn [fst snd].
  rewrite !connection_execute. cbv zeta.
  destruct (Sqlite.execute _ _ _) as [[cur d']|e]; [|reflexivity].
  destruct (from_db_row_run cls m
              ("id" :: PyDict.keys (BaseModel.fields m)) Hm)
    as [build Hbuild].
  rewrite (rmap_total _ build _ Hbuild).
  unfold Sqlite.fetchone.
  destruct (Sqlite.fetchall cur) as [|row rows]; [reflexivity|].
  now rewrite Hbuild.
Qed.

Lemma get_is_first_of_filter_witness :
  BaseModel.get Demo.User (PyInt 2) Demo.two_users =
  (map_result (@hd_error BaseModel.instance)
     (fst (BaseModel.filter Demo.User [("id", PyInt 2)] Demo.two_users)),
   snd (BaseModel.filter Demo.User [("id", PyInt 2)] Demo.two_users)) /\
  fst (BaseModel.get Demo.User (PyInt 2) Demo.two_users)
  = Ok (Some Demo.bob_created).
Proof.
  split; [|reflexivity].
  exact (get_is_first_of_filter Demo.User (PyInt 2) Demo.two_users eq_refl).
Defined.



(** ** Rows in and out of the engine *)

Section DictFacts3.
Context {V : Type}.
Implicit Types (d : PyDict.dict V) (k : string) (v : V).




End DictFacts3.

Lemma bind_value_to_sql v :
  match v with
  | PyInt z => (- 2 ^ 63 <= z < 2 ^ 63)%Z
  | _ => True
  end ->
  Sqlite.bind_value v = Ok (to_sql v).
Proof.
  destruct v as [|b|z|bits|s]; try reflexivity.
  intros Hz. now apply bind_int.
Qed.







































(** *** The demonstration type meets the preconditions *)















(** ** Reading, deleting and updating rows *)


































(** ** What a filter selects *)




(** ** Creating the table *)



(** ** Types without declared fields *)




(** ** The connection *)

(** X28.  [commit] raises on a connection that was never opened, and
    [execute] opens it: after an [execute], whether the engine accepted
    the statement or raised, [commit] succeeds and changes nothing in the
    database. *)
Theorem commit_after_execute conn q ps :
  (Connection.connection conn = false ->
   Connection.commit conn
   = (Raise (RuntimeError "Connection is not open"), conn)) /\
  fst (Connection.commit (snd (Connection.execute conn q ps))) = Ok tt /\
  Connection.database
    (snd (Connection.commit (snd (Connection.execute conn q ps))))
  = Connection.database (snd (Connection.execute conn q ps)).
Proof.
  split.
  - intros Hc. unfold Connection.commit. now rewrite Hc.
  - rewrite connection_execute. cbv zeta. unfold Connection.commit.
    destruct (Sqlite.execute (Connection.database conn) q ps) as [[c d]|e];
      now split.
Qed.

Lemma commit_after_execute_witness :
  Connection.commit (Connection.mkConnection false [] [])
  = (Raise (RuntimeError "Connection is not open"),
     Connection.mkConnection false [] []) /\
  fst (Connection.commit
         (snd (Connection.execute (Connection.mkConnection false [] [])
                 (Sqlite.Delete "users") [PyInt 1])))
  = Ok tt.
Proof.
  destruct (commit_after_execute (Connection.mkConnection false [] [])
              (Sqlite.Delete "users") [PyInt 1]) as (Hclosed & Hopen & _).
  split; [apply Hclosed; reflexivity | exact Hopen].
Defined.
